(** * Career assistant: scoring, gap analysis and peer generation

    A shallow embedding of the scoring engine of the career assistant:
    - [Pipeline] follows [src/ai_pipeline_simple.py]
      (class [CareerRecommendationPipeline]): [skill_matching],
      [_calculate_weighted_matching], [_expand_skills_with_synonyms],
      [_parse_user_skills], [_get_skill_synonyms],
      [_determine_skill_level], [_get_soft_skills_for_career] and
      [gap_analysis];
    - [Benchmark] follows [src/ai_career_benchmarking_assistant.py]
      (class [AICareerBenchmarkingAssistant]): [_generate_peer_skills]
      and [_generate_realistic_peer_group].

    Conventions of the embedding.
    - Python floats are read as exact rationals ([Q], compared with [==]);
      [round(x, n)] is rounding to the nearest multiple of [10^-n], ties to
      even.
    - Python [str] is [string]; [lower] and [strip] act on the ASCII range.
    - A pandas frame is the list of its rows, in index order.
    - A [dict] with string keys is a [gmap string _] where only lookups
      matter, and an association list where iteration order matters; a
      [set] of strings is a [gset string].
    - The TF-IDF cosine similarity and the random number generators are
      library calls: they are parameters of the sections below. *)

From Stdlib Require Import ZArith QArith Qround Qminmax Lqa Lia List String Ascii.
From stdpp Require Import gmap strings list fin_maps.

#[local] Set Warnings "-clear-no-such-hyp".

Local Open Scope string_scope.
Local Open Scope list_scope.
Local Open Scope Z_scope.

(** ** Python strings *)

Module PyStr.

Definition is_upper (c : ascii) : bool :=
  let n := N_of_ascii c in ((65 <=? n) && (n <=? 90))%N.

Definition lower_char (c : ascii) : ascii :=
  if is_upper c then ascii_of_N (N_of_ascii c + 32) else c.

(** [s.lower()] *)
Fixpoint lower (s : string) : string :=
  match s with
  | EmptyString => EmptyString
  | String c s' => String (lower_char c) (lower s')
  end.

(** [needle in hay] on strings: substring test. *)
Fixpoint contains (needle hay : string) : bool :=
  if String.prefix needle hay then true
  else match hay with
       | EmptyString => false
       | String _ hay' => contains needle hay'
       end.

(** [str.isspace] on one ASCII character (also the class [\s]). *)
Definition is_space (c : ascii) : bool :=
  let n := N_of_ascii c in
  (((9 <=? n) && (n <=? 13)) || ((28 <=? n) && (n <=? 32)))%N.

Fixpoint lstrip (s : string) : string :=
  match s with
  | String c s' => if is_space c then lstrip s' else s
  | EmptyString => EmptyString
  end.

Fixpoint rstrip (s : string) : string :=
  match s with
  | EmptyString => EmptyString
  | String c s' =>
      match rstrip s' with
      | EmptyString => if is_space c then EmptyString else String c EmptyString
      | r => String c r
      end
  end.

(** [s.strip()] *)
Definition strip (s : string) : string := rstrip (lstrip s).

(** [s.split(sep)] for a one-character separator. *)
Fixpoint split (sep : ascii) (s : string) : list string :=
  match s with
  | EmptyString => [EmptyString]
  | String c s' =>
      if Ascii.eqb c sep then EmptyString :: split sep s'
      else match split sep s' with
           | w :: ws => String c w :: ws
           | [] => [String c EmptyString]
           end
  end.

(** [sep.join(l)] *)
Fixpoint join (sep : string) (l : list string) : string :=
  match l with
  | [] => EmptyString
  | [x] => x
  | x :: l' => (x ++ sep ++ join sep l')%string
  end.

End PyStr.

(** ** Python numbers *)

Module PyNum.

(** Nearest integer, ties to the even neighbour. *)
Definition round_half_even (q : Q) : Z :=
  let n := Qnum q in
  let d := Zpos (Qden q) in
  let fl := n / d in
  let r := n mod d in
  match 2 * r ?= d with
  | Lt => fl
  | Gt => fl + 1
  | Eq => if Z.even fl then fl else fl + 1
  end.

(** [round(q, 1)] *)
Definition round1 (q : Q) : Q := round_half_even (q * 10) # 10.

(** [round(q, 3)] *)
Definition round3 (q : Q) : Q := round_half_even (q * 1000) # 1000.

(** [len(l)] as a Python integer. *)
Definition len {A} (l : list A) : Z := Z.of_nat (length l).

(** [sorted(l, key=key, reverse=True)]: descending and stable, so that
    elements with equal keys keep their input order. *)
Fixpoint insert_desc {A} (key : A -> Q) (x : A) (l : list A) : list A :=
  match l with
  | [] => [x]
  | y :: l' =>
      if Qle_bool (key y) (key x) then x :: l
      else y :: insert_desc key x l'
  end.

Definition sorted_desc {A} (key : A -> Q) (l : list A) : list A :=
  fold_right (insert_desc key) [] l.

(** [l[:n]] for a Python integer [n] (a negative [n] counts from the end). *)
Definition slice_to {A} (n : Z) (l : list A) : list A :=
  if 0 <=? n then firstn (Z.to_nat n) l
  else firstn (Z.to_nat (len l + n)) l.

End PyNum.

(** ** The recommendation pipeline ([src/ai_pipeline_simple.py]) *)

Module Pipeline.
Import PyStr PyNum.

(** *** Data model *)

(** The four keys of the per-category dictionaries of
    [_calculate_weighted_matching]. *)
Inductive skill_category := core | intermediate | supporting | soft.

#[export] Instance skill_category_eq_dec : EqDecision skill_category.
Proof. solve_decision. Defined.

Definition categories : list skill_category :=
  [core; intermediate; supporting; soft].

(** A dictionary keyed by the four categories. *)
Definition by_category (A : Type) : Type := skill_category -> A.

Definition cat_set {A} (d : by_category A) (c : skill_category) (v : A)
  : by_category A :=
  fun c' => if decide (c' = c) then v else d c'.

(** [d[c].append(x)] *)
Definition cat_append {A} (d : by_category (list A)) (c : skill_category)
  (x : A) : by_category (list A) :=
  cat_set d c (d c ++ [x]).

(** One requirement: the columns of a row of [career_skills.csv] that the
    engine reads, also the shape of the soft-skill tables. *)
Module Req.
Record t := mk {
  skill : string;
  difficulty : string;
  importance : Z;
  is_required : bool;
  category : skill_category;
  weight : Q
}.
End Req.

(** A row of the frame [career_skills_df]. *)
Record catalog_row := { career : string; requirement : Req.t }.

(** The rows of one career: [df[df['career'] == c]]. *)
Definition rows_of (df : list catalog_row) (c : string) : list Req.t :=
  map requirement (filter (fun r => career r = c) df).

(** [df[df['is_required'] == True]] *)
Definition required_rows (rows : list Req.t) : list Req.t :=
  filter (fun r => Req.is_required r = true) rows.

(** [df[df['is_required'] == False]] *)
Definition optional_rows (rows : list Req.t) : list Req.t :=
  filter (fun r => Req.is_required r = false) rows.

(** [df['career'].unique()]: the careers in order of first appearance. *)
Definition unique (l : list string) : list string :=
  fold_left (fun acc x => if decide (x ∈ acc) then acc else acc ++ [x]) l [].

Definition Qltb (x y : Q) : bool := negb (Qle_bool y x).

(** *** The synonym table

    The literal dictionary [skill_synonyms] of
    [_expand_skills_with_synonyms] and the one returned by
    [_get_skill_synonym_mapping] are the same table, entry for entry and in
    the same order. *)
Definition _get_skill_synonym_mapping : list (string * list string) := [
    ("python", ["python"; "py"; "python3"; "python3.8"; "python3.9"; "python3.10"]);
    ("sql", ["sql"; "mysql"; "postgresql"; "sqlite"; "tsql"; "plsql"; "database"; "db"; "rdbms"]);
    ("java", ["java"; "jdk"; "jvm"; "spring"; "maven"; "gradle"]);
    ("javascript", ["javascript"; "js"; "ecmascript"; "es6"; "es2015"; "es2017"; "es2020"]);
    ("c++", ["c++"; "cpp"; "c plus plus"; "stl"; "boost"]);
    ("c#", ["c#"; "csharp"; "dotnet"; ".net"; "asp.net"; "entity framework"]);
    ("machine learning", ["machine learning"; "ml"; "ai"; "artificial intelligence"; "deep learning"; "neural networks"; "predictive modeling"]);
    ("deep learning", ["deep learning"; "neural networks"; "cnn"; "rnn"; "lstm"; "transformer"; "bert"; "gpt"]);
    ("data science", ["data science"; "data scientist"; "analytics"; "predictive analytics"]);
    ("statistics", ["statistics"; "stats"; "statistical analysis"; "hypothesis testing"; "regression"; "correlation"; "anova"]);
    ("data visualization", ["data visualization"; "visualization"; "viz"; "matplotlib"; "seaborn"; "plotly"; "tableau"; "powerbi"; "d3.js"; "ggplot"]);
    ("visualization", ["visualization"; "data visualization"; "viz"; "charts"; "graphs"; "dashboards"; "data viz"]);
    ("pandas", ["pandas"; "pd"; "dataframe"; "data manipulation"; "data analysis"]);
    ("numpy", ["numpy"; "np"; "numerical computing"; "arrays"; "matrices"]);
    ("scikit-learn", ["scikit-learn"; "sklearn"; "machine learning library"; "ml library"; "scikit"]);
    ("tensorflow", ["tensorflow"; "tf"; "deep learning framework"; "neural networks"; "keras"]);
    ("pytorch", ["pytorch"; "torch"; "deep learning"; "ml framework"; "neural networks"]);
    ("keras", ["keras"; "deep learning"; "neural networks"; "tensorflow"]);
    ("react", ["react"; "reactjs"; "react.js"; "jsx"; "hooks"; "redux"; "context"]);
    ("angular", ["angular"; "angularjs"; "ng"; "angular 2+"; "angular material"]);
    ("vue.js", ["vue"; "vue.js"; "vuejs"; "vue 3"; "composition api"]);
    ("node.js", ["node.js"; "nodejs"; "node"; "express"; "npm"; "yarn"]);
    ("html", ["html"; "html5"; "markup"; "semantic html"; "accessibility"]);
    ("css", ["css"; "css3"; "styling"; "responsive design"; "flexbox"; "grid"; "sass"; "less"]);
    ("typescript", ["typescript"; "ts"; "typed javascript"; "type safety"]);
    ("flask", ["flask"; "python web framework"; "microframework"; "wsgi"]);
    ("django", ["django"; "python web framework"; "mvt"; "admin panel"; "orm"]);
    ("fastapi", ["fastapi"; "python web framework"; "async"; "api"; "pydantic"]);
    ("spring boot", ["spring boot"; "spring"; "java framework"; "dependency injection"; "aop"]);
    ("spring", ["spring"; "spring framework"; "spring boot"; "java framework"]);
    ("docker", ["docker"; "containerization"; "containers"; "dockerfile"; "docker compose"]);
    ("kubernetes", ["kubernetes"; "k8s"; "container orchestration"; "microservices"; "deployment"]);
    ("aws", ["aws"; "amazon web services"; "ec2"; "s3"; "lambda"; "rds"; "cloudfront"; "route53"]);
    ("azure", ["azure"; "microsoft azure"; "cloud computing"; "vm"; "blob storage"; "functions"]);
    ("gcp", ["gcp"; "google cloud platform"; "google cloud"; "compute engine"; "cloud storage"]);
    ("hadoop", ["hadoop"; "apache hadoop"; "big data"; "mapreduce"; "hdfs"; "yarn"]);
    ("spark", ["spark"; "apache spark"; "big data"; "distributed computing"; "dataframes"; "streaming"]);
    ("kafka", ["kafka"; "apache kafka"; "streaming"; "message queue"; "event streaming"]);
    ("mongodb", ["mongodb"; "nosql"; "document database"; "mongo"; "aggregation"]);
    ("postgresql", ["postgresql"; "postgres"; "relational database"; "rdbms"; "acid"]);
    ("mysql", ["mysql"; "relational database"; "rdbms"; "maria db"; "innodb"]);
    ("redis", ["redis"; "in-memory database"; "cache"; "key-value store"; "data structures"]);
    ("terraform", ["terraform"; "infrastructure as code"; "iac"; "hashicorp"; "provisioning"]);
    ("jenkins", ["jenkins"; "ci/cd"; "continuous integration"; "automation"; "pipeline"]);
    ("git", ["git"; "github"; "gitlab"; "version control"; "vcs"; "source control"]);
    ("linux", ["linux"; "unix"; "ubuntu"; "centos"; "debian"; "red hat"; "shell"]);
    ("selenium", ["selenium"; "web testing"; "automated testing"; "browser automation"; "webdriver"]);
    ("junit", ["junit"; "java testing"; "unit testing"; "test framework"; "tdd"]);
    ("pytest", ["pytest"; "python testing"; "unit testing"; "test framework"; "fixtures"]);
    ("figma", ["figma"; "ui design"; "ux design"; "prototyping"; "design tools"; "collaboration"]);
    ("adobe xd", ["adobe xd"; "ux design"; "prototyping"; "design tools"; "wireframing"]);
    ("sketch", ["sketch"; "ui design"; "mac design tool"; "prototyping"; "design systems"]);
    ("agile", ["agile"; "scrum"; "kanban"; "project management"; "iterative"; "adaptive"]);
    ("scrum", ["scrum"; "agile methodology"; "sprint planning"; "standup"; "retrospective"]);
    ("jira", ["jira"; "project management"; "issue tracking"; "agile tools"; "atlassian"]);
    ("etl", ["etl"; "extract transform load"; "data pipeline"; "data integration"; "data processing"]);
    ("data modeling", ["data modeling"; "database design"; "schema design"; "normalization"; "erd"]);
    ("api", ["api"; "rest api"; "graphql"; "web services"; "endpoints"; "microservices"]);
    ("microservices", ["microservices"; "microservice architecture"; "distributed systems"; "service mesh"]);
    ("ci/cd", ["ci/cd"; "continuous integration"; "continuous deployment"; "devops"; "automation"]);
    ("mlops", ["mlops"; "machine learning operations"; "model deployment"; "model monitoring"; "ml infrastructure"])
  ].

(** [d.get(k)] on an ordered dictionary given by its items. *)
Fixpoint dict_get {A} (d : list (string * A)) (k : string) : option A :=
  match d with
  | [] => None
  | (k', v) :: d' => if String.eqb k' k then Some v else dict_get d' k
  end.

(** *** [_expand_skills_with_synonyms] *)

(** [for s in syns: if s not in expanded: expanded.append(s)] *)
Definition append_new (expanded syns : list string) : list string :=
  fold_left (fun acc s => if decide (s ∈ acc) then acc else acc ++ [s])
    syns expanded.

(** The body of the fuzzy-matching loop for one table entry. *)
Definition expand_fuzzy (skill_lower : string) (expanded : list string)
  (item : string * list string) : list string :=
  let '(canonical_skill, synonyms) := item in
  let expanded :=
    if contains skill_lower canonical_skill || contains canonical_skill skill_lower
    then append_new expanded synonyms else expanded in
  fold_left
    (fun acc synonym =>
       if contains skill_lower synonym || contains synonym skill_lower
       then append_new acc synonyms else acc)
    synonyms expanded.

Definition expand_one (expanded : list string) (skill : string) : list string :=
  let skill_lower := lower skill in
  let expanded :=
    match dict_get _get_skill_synonym_mapping skill_lower with
    | Some syns => append_new expanded syns
    | None => expanded
    end in
  fold_left (expand_fuzzy skill_lower) _get_skill_synonym_mapping expanded.

Definition _expand_skills_with_synonyms (user_skills : list string)
  : list string :=
  fold_left expand_one user_skills user_skills.

(** *** [_calculate_weighted_matching] *)

(** The dictionaries appended to the per-category lists. *)
Module SkillEntry.
Record t := mk {
  skill : string;
  category : skill_category;
  weight : Q;
  weighted_score : Q
}.
End SkillEntry.

(** The local variables the row loop updates. *)
Module Acc.
Record t := mk {
  exact_matches : gset string;
  required_matches : gset string;
  total_weighted_score : Q;
  total_possible_weighted_score : Q;
  matched_skills_by_category : by_category (list SkillEntry.t);
  missing_skills_by_category : by_category (list SkillEntry.t);
  required_missing_by_category : by_category (list SkillEntry.t)
}.

Definition init : t :=
  mk ∅ ∅ 0 0 (fun _ => []) (fun _ => []) (fun _ => []).
End Acc.

(** One iteration of [for _, skill_row in career_skills_df.iterrows()]. *)
Definition match_row (user_skill_set : gset string) (a : Acc.t)
  (skill_row : Req.t) : Acc.t :=
  let skill_name := lower (Req.skill skill_row) in
  let skill_category := Req.category skill_row in
  let skill_weight := Req.weight skill_row in
  let is_required := Req.is_required skill_row in
  let skill_weighted_score := (skill_weight * 10)%Q in
  let entry :=
    SkillEntry.mk (Req.skill skill_row) skill_category skill_weight
      skill_weighted_score in
  if decide (skill_name ∈ user_skill_set) then
    Acc.mk
      ({[skill_name]} ∪ Acc.exact_matches a)
      (if is_required then {[skill_name]} ∪ Acc.required_matches a
       else Acc.required_matches a)
      (Acc.total_weighted_score a + skill_weighted_score)%Q
      (Acc.total_possible_weighted_score a + skill_weighted_score)%Q
      (cat_append (Acc.matched_skills_by_category a) skill_category entry)
      (Acc.missing_skills_by_category a)
      (Acc.required_missing_by_category a)
  else
    Acc.mk
      (Acc.exact_matches a)
      (Acc.required_matches a)
      (Acc.total_weighted_score a)
      (Acc.total_possible_weighted_score a + skill_weighted_score)%Q
      (Acc.matched_skills_by_category a)
      (cat_append (Acc.missing_skills_by_category a) skill_category entry)
      (if is_required
       then cat_append (Acc.required_missing_by_category a) skill_category entry
       else Acc.required_missing_by_category a).

(** The [category_breakdown] entry of one category. *)
Module CatBreakdown.
Record t := mk { matched : Z; total : Z; score : Q }.
End CatBreakdown.

Module Breakdown.
Record t := mk {
  total_weighted_score : Q;
  total_possible_weighted_score : Q;
  weighted_percentage : Q;
  required_matches : Z;
  total_required : Z;
  required_percentage : Q;
  category_breakdown : by_category CatBreakdown.t
}.
End Breakdown.

(** The dictionary [_calculate_weighted_matching] returns. *)
Module WA.
Record t := mk {
  exact_matches : gset string;
  required_matches : gset string;
  weighted_match_percentage : Q;
  required_match_percentage : Q;
  category_scores : by_category Q;
  matched_skills_by_category : by_category (list SkillEntry.t);
  missing_skills_by_category : by_category (list SkillEntry.t);
  required_missing_by_category : by_category (list SkillEntry.t);
  score_breakdown : Breakdown.t
}.
End WA.

(** [len([s for _, s in df.iterrows() if s.get('category') == cat])] *)
Definition total_in_category (career_skills_df : list Req.t)
  (cat : skill_category) : Z :=
  len (filter (fun s => Req.category s = cat) career_skills_df).

(** [len(s)] for a set. *)
Definition set_len (s : gset string) : Z := Z.of_nat (size s).

Definition _calculate_weighted_matching (user_skill_set : gset string)
  (career_skills_df required_skills_df : list Req.t) : WA.t :=
  let a := fold_left (match_row user_skill_set) career_skills_df Acc.init in
  let category_scores : by_category Q := fun cat =>
    let matched_in_category := len (Acc.matched_skills_by_category a cat) in
    let total := total_in_category career_skills_df cat in
    if 0 <? total
    then (inject_Z matched_in_category / inject_Z total * 100)%Q
    else 0%Q in
  let total_weighted_score := Acc.total_weighted_score a in
  let total_possible_weighted_score := Acc.total_possible_weighted_score a in
  let weighted_match_percentage :=
    if Qltb 0 total_possible_weighted_score
    then (total_weighted_score / total_possible_weighted_score * 100)%Q
    else 0%Q in
  let required_match_percentage :=
    if 0 <? len required_skills_df
    then (inject_Z (set_len (Acc.required_matches a))
          / inject_Z (len required_skills_df) * 100)%Q
    else 0%Q in
  let score_breakdown :=
    Breakdown.mk
      (round1 total_weighted_score)
      (round1 total_possible_weighted_score)
      (round1 weighted_match_percentage)
      (set_len (Acc.required_matches a))
      (len required_skills_df)
      (round1 required_match_percentage)
      (fun cat =>
         CatBreakdown.mk
           (len (Acc.matched_skills_by_category a cat))
           (total_in_category career_skills_df cat)
           (round1 (category_scores cat))) in
  WA.mk
    (Acc.exact_matches a)
    (Acc.required_matches a)
    weighted_match_percentage
    required_match_percentage
    category_scores
    (Acc.matched_skills_by_category a)
    (Acc.missing_skills_by_category a)
    (Acc.required_missing_by_category a)
    score_breakdown.

(** *** [skill_matching] *)

(** One element of the list [skill_matching] returns. *)
Module Match.
Record t := mk {
  career : string;
  match_percentage : Q;
  base_score : Q;
  bonus_score : Q;
  semantic_similarity : Q;
  weighted_match_percentage : Q;
  required_match_percentage : Q;
  category_scores : by_category Q;
  matched_skills : by_category (list SkillEntry.t);
  missing_skills : by_category (list SkillEntry.t);
  required_missing : by_category (list SkillEntry.t);
  total_career_skills : Z;
  total_required_skills : Z;
  skills_covered : Z;
  score_breakdown : Breakdown.t
}.
End Match.

(** Base score: 60% weighted skills + 25% required skills + 15% semantic. *)
Definition base_score (wa : WA.t) (semantic_similarity : Q) : Q :=
  (WA.weighted_match_percentage wa * 0.6
   + WA.required_match_percentage wa * 0.25
   + semantic_similarity * 100 * 0.15)%Q.

(** Bonus for having most required skills. *)
Definition required_coverage_bonus (wa : WA.t) : Q :=
  if decide (WA.required_matches wa ≠ ∅) then
    let required_coverage := WA.required_match_percentage wa in
    if Qle_bool 80 required_coverage then 15%Q
    else if Qle_bool 60 required_coverage then 10%Q
    else if Qle_bool 40 required_coverage then 5%Q
    else 0%Q
  else 0%Q.

(** Bonus for having complementary skills:
    [len(exact_matches) >= len(required_matches) * 0.5]. *)
Definition complementary_bonus (wa : WA.t) : Q :=
  if Qle_bool (inject_Z (set_len (WA.required_matches wa)) * 0.5)
       (inject_Z (set_len (WA.exact_matches wa)))
  then 5%Q else 0%Q.

(** Bonus for high semantic similarity. *)
Definition semantic_bonus (semantic_similarity : Q) : Q :=
  if Qltb 0.3 semantic_similarity then 5%Q else 0%Q.

Definition bonus_score (wa : WA.t) (semantic_similarity : Q) : Q :=
  (0 + required_coverage_bonus wa + complementary_bonus wa
   + semantic_bonus semantic_similarity)%Q.

(** [final_score = min(100, base_score + bonus_score)] *)
Definition uncapped_final_score (wa : WA.t) (semantic_similarity : Q) : Q :=
  Qmin 100 (base_score wa semantic_similarity
            + bonus_score wa semantic_similarity).

(** The safety checks, applied one after the other to [final_score]. *)
Definition safety_checks (total_career_skills : Z)
  (required_match_percentage : Q) (final_score : Q) : Q :=
  let final_score :=
    if (total_career_skills <? 8) && Qltb 75 final_score
    then Qmin 75 final_score else final_score in
  let final_score :=
    if Qltb 90 final_score && Qltb required_match_percentage 80
    then Qmin 85 final_score else final_score in
  let final_score :=
    if Qltb 70 final_score && Qltb required_match_percentage 60
    then Qmin 65 final_score else final_score in
  final_score.

(** The safety caps as the specification words them: each condition is
    tested on the uncapped score, and the minimum of the uncapped score
    and of the caps that fire is taken. *)
Definition caps_on_uncapped (total_career_skills : Z)
  (required_match_percentage : Q) (final : Q) : Q :=
  let cap1 :=
    if (total_career_skills <? 8) && Qltb 75 final then [75%Q] else [] in
  let cap2 :=
    if Qltb 90 final && Qltb required_match_percentage 80
    then [85%Q] else [] in
  let cap3 :=
    if Qltb 70 final && Qltb required_match_percentage 60
    then [65%Q] else [] in
  fold_left Qmin (cap1 ++ cap2 ++ cap3) final.

Definition final_score (wa : WA.t) (total_career_skills : Z)
  (semantic_similarity : Q) : Q :=
  safety_checks total_career_skills (WA.required_match_percentage wa)
    (uncapped_final_score wa semantic_similarity).

(** [f"User has skills: {', '.join(user_skills)}"] *)
Definition user_profile (user_skills : list string) : string :=
  ("User has skills: " ++ join ", " user_skills)%string.

(** [list(enumerate(l))] *)
Definition enumerate {A} (l : list A) : list (nat * A) :=
  zip (seq 0 (length l)) l.

Section Matching.

(** The frame loaded from [career_skills.csv]. *)
Variable career_skills_df : list catalog_row.

(** [cosine_similarity(vectorizer.transform([user_profile]),
    career_tfidf_matrix[i:i+1])[0][0]], a call into scikit-learn. *)
Variable tfidf_cosine : string -> nat -> Q.

(** The keys of [career_skill_vectors], in insertion order. *)
Definition career_skill_vectors : list string :=
  unique (map career career_skills_df).

(** The weighted analysis of one career against the expanded skills. *)
Definition weighted_analysis_of (user_skill_set : gset string)
  (career : string) : WA.t :=
  let career_skills := rows_of career_skills_df career in
  _calculate_weighted_matching user_skill_set career_skills
    (required_rows career_skills).

(** The body of the loop over careers; [None] is [continue]. *)
Definition match_career (user_skills : list string)
  (user_skill_set : gset string) (ic : nat * string) : option Match.t :=
  let '(i, career) := ic in
  let career_skills := rows_of career_skills_df career in
  match career_skills with
  | [] => None
  | _ =>
    let required_skills := required_rows career_skills in
    let all_career_skills := career_skills in
    let weighted_analysis :=
      _calculate_weighted_matching user_skill_set all_career_skills
        required_skills in
    let semantic_similarity := tfidf_cosine (user_profile user_skills) i in
    Some (Match.mk
      career
      (round1 (final_score weighted_analysis (len all_career_skills)
                 semantic_similarity))
      (round1 (base_score weighted_analysis semantic_similarity))
      (round1 (bonus_score weighted_analysis semantic_similarity))
      (round3 semantic_similarity)
      (round1 (WA.weighted_match_percentage weighted_analysis))
      (round1 (WA.required_match_percentage weighted_analysis))
      (WA.category_scores weighted_analysis)
      (WA.matched_skills_by_category weighted_analysis)
      (WA.missing_skills_by_category weighted_analysis)
      (WA.required_missing_by_category weighted_analysis)
      (len all_career_skills)
      (len required_skills)
      (set_len (WA.exact_matches weighted_analysis))
      (WA.score_breakdown weighted_analysis))
  end.

(** [set([skill.lower() for skill in expanded_user_skills])] *)
Definition user_skill_set_of (user_skills : list string) : gset string :=
  list_to_set (map lower (_expand_skills_with_synonyms user_skills)).

Definition skill_matching (user_skills : list string) (top_n : Z)
  : list Match.t :=
  match user_skills with
  | [] => []
  | _ =>
    let user_skill_set := user_skill_set_of user_skills in
    let career_matches :=
      omap (match_career user_skills user_skill_set)
        (enumerate career_skill_vectors) in
    slice_to top_n (sorted_desc Match.match_percentage career_matches)
  end.

End Matching.

(** *** [_determine_skill_level] *)

(** [x in l] for a list of strings. *)
Definition str_in (x : string) (l : list string) : bool :=
  existsb (String.eqb x) l.

Definition _determine_skill_level (skill default_level : string) : string :=
  if negb (String.eqb default_level "")
     && negb (String.eqb (strip default_level) "")
  then default_level
  else
    let skill_lower := lower skill in
    let core_languages :=
      ["python"; "java"; "javascript"; "c++"; "c#"; "go"; "rust"; "swift";
       "kotlin"; "sql"; "r"] in
    let core_libraries :=
      ["numpy"; "pandas"; "seaborn"; "matplotlib"; "scikit-learn"; "sklearn"] in
    let advanced_tools :=
      ["tensorflow"; "pytorch"; "kubernetes"; "docker"; "spark"; "hadoop";
       "kafka"; "elasticsearch"; "deep learning"; "neural networks"] in
    let basic_tools :=
      ["git"; "jupyter"; "excel"; "powerpoint"; "word"; "data visualization";
       "data cleaning"] in
    let ml_concepts :=
      [("machine learning", "Intermediate");
       ("statistics", "Intermediate");
       ("feature engineering", "Intermediate");
       ("model evaluation", "Intermediate");
       ("a/b testing", "Intermediate");
       ("business intelligence", "Beginner")] in
    let web_frameworks :=
      [("react", "Intermediate");
       ("angular", "Advanced");
       ("vue.js", "Intermediate");
       ("node.js", "Intermediate");
       ("django", "Intermediate");
       ("flask", "Beginner");
       ("spring boot", "Advanced");
       ("express.js", "Beginner")] in
    let cloud_platforms := ["aws"; "azure"; "gcp"; "heroku"; "digitalocean"] in
    let soft_skills :=
      ["communication"; "leadership"; "teamwork"; "problem solving";
       "critical thinking"; "creativity"] in
    if str_in skill_lower core_languages then "Intermediate"
    else if str_in skill_lower core_libraries then "Intermediate"
    else if str_in skill_lower advanced_tools then "Advanced"
    else if str_in skill_lower basic_tools then "Beginner"
    else match dict_get ml_concepts skill_lower with
    | Some level => level
    | None =>
    match dict_get web_frameworks skill_lower with
    | Some level => level
    | None =>
    if str_in skill_lower cloud_platforms then "Intermediate"
    else if str_in skill_lower soft_skills then "Intermediate"
    else "Beginner"
    end end.

(** *** [_parse_user_skills] *)

(** The dictionaries [{'skill': ..., 'level': ...}]. *)
Module SkillInfo.
Record t := mk { skill : string; level : string }.
End SkillInfo.

(** A literal matched at the head of [s] under [re.IGNORECASE]: the text
    it matched, as written in [s], and what follows it. *)
Fixpoint match_icase (lit s : string) : option (string * string) :=
  match lit, s with
  | EmptyString, _ => Some (EmptyString, s)
  | String a lit', String b s' =>
      if Ascii.eqb (lower_char a) (lower_char b) then
        match match_icase lit' s' with
        | Some (m, rest) => Some (String b m, rest)
        | None => None
        end
      else None
  | String _ _, EmptyString => None
  end.

(** The group [(Beginner|Intermediate|Advanced)]. *)
Definition match_level (s : string) : option (string * string) :=
  match match_icase "Beginner" s with
  | Some r => Some r
  | None =>
    match match_icase "Intermediate" s with
    | Some r => Some r
    | None => match_icase "Advanced" s
    end
  end.

(** What follows the first group in pattern 1:
    [\s*\(\s*(Beginner|Intermediate|Advanced)\s*\)]; the result is the
    second group. *)
Definition paren_tail (s : string) : option string :=
  match lstrip s with
  | String "("%char s1 =>
      match match_level (lstrip s1) with
      | Some (level, s2) =>
          match lstrip s2 with
          | String ")"%char _ => Some level
          | _ => None
          end
      | None => None
      end
  | _ => None
  end.

(** What follows the first group in pattern 2:
    [\s*[-:]\s*(Beginner|Intermediate|Advanced)]. *)
Definition dash_tail (s : string) : option string :=
  match lstrip s with
  | String c s1 =>
      if Ascii.eqb c "-"%char || Ascii.eqb c ":"%char then
        match match_level (lstrip s1) with
        | Some (level, _) => Some level
        | None => None
        end
      else None
  | EmptyString => None
  end.

(** [re.match] of [(.+?)] followed by [tail]: the shortest non-empty
    prefix without a newline after which [tail] matches. *)
Fixpoint lazy_group (tail : string -> option string) (s : string)
  : option (string * string) :=
  match s with
  | EmptyString => None
  | String c s' =>
      if Ascii.eqb c "010"%char then None
      else match tail s' with
           | Some level => Some (String c EmptyString, level)
           | None =>
               match lazy_group tail s' with
               | Some (g, level) => Some (String c g, level)
               | None => None
               end
           end
  end.

(** The body of the loop of [_parse_user_skills] for one non-blank item. *)
Definition parse_one (skill_input : string) : SkillInfo.t :=
  let skill_input := strip skill_input in
  let '(skill_name, skill_level) :=
    match lazy_group paren_tail skill_input with
    | Some (g1, g2) => (strip g1, strip g2)
    | None =>
        match lazy_group dash_tail skill_input with
        | Some (g1, g2) => (strip g1, strip g2)
        | None => (skill_input, EmptyString)
        end
    end in
  let skill_level :=
    if String.eqb skill_level "" then _determine_skill_level skill_name ""
    else skill_level in
  SkillInfo.mk skill_name skill_level.

Definition nonblank (s : string) : bool := negb (String.eqb s "").

Definition _parse_user_skills (user_skills_input : string)
  : list SkillInfo.t :=
  let sep :=
    if contains (String "010"%char "") user_skills_input
    then "010"%char else ","%char in
  let skills_list :=
    filter (fun s => nonblank s = true)
      (map strip (split sep user_skills_input)) in
  map parse_one (filter (fun s => nonblank (strip s) = true) skills_list).

(** *** [_get_skill_synonyms] *)

(** The synonyms found by the loop over the table: those of the first
    entry whose key, or one of whose synonyms, is [skill_lower]. *)
Fixpoint find_synonyms (skill_lower : string)
  (mapping : list (string * list string)) : list string :=
  match mapping with
  | [] => []
  | (canonical_skill, skill_synonyms) :: mapping' =>
      if String.eqb skill_lower (lower canonical_skill) then skill_synonyms
      else if str_in skill_lower (map lower skill_synonyms) then skill_synonyms
      else find_synonyms skill_lower mapping'
  end.

(** [list(set(synonyms))], in the order of [elements]. *)
Definition _get_skill_synonyms (skill_name : string) : list string :=
  let skill_lower := lower skill_name in
  let synonyms :=
    [skill_name] ++ find_synonyms skill_lower _get_skill_synonym_mapping in
  elements (list_to_set synonyms : gset string).

(** *** [_get_soft_skills_for_career] *)

Definition soft_row (skill difficulty : string) (importance : Z)
  (is_required : bool) (weight : Q) : Req.t :=
  Req.mk skill difficulty importance is_required soft weight.

Definition soft_skills_mapping : list (string * list Req.t) := [
  ("Data Scientist", [
     soft_row "Communication" "Intermediate" 8 true 0.8;
     soft_row "Problem Solving" "Intermediate" 9 true 0.9;
     soft_row "Critical Thinking" "Intermediate" 8 true 0.8;
     soft_row "Teamwork" "Intermediate" 7 false 0.7;
     soft_row "Leadership" "Intermediate" 6 false 0.6]);
  ("Data Engineer", [
     soft_row "Communication" "Intermediate" 7 true 0.7;
     soft_row "Problem Solving" "Advanced" 8 true 0.8;
     soft_row "Attention to Detail" "Advanced" 9 true 0.9;
     soft_row "Teamwork" "Intermediate" 6 false 0.6]);
  ("Machine Learning Engineer", [
     soft_row "Communication" "Intermediate" 7 true 0.7;
     soft_row "Problem Solving" "Advanced" 9 true 0.9;
     soft_row "Research Skills" "Advanced" 8 true 0.8;
     soft_row "Creativity" "Intermediate" 6 false 0.6]);
  ("Software Engineer", [
     soft_row "Communication" "Intermediate" 8 true 0.8;
     soft_row "Problem Solving" "Advanced" 9 true 0.9;
     soft_row "Teamwork" "Intermediate" 7 true 0.7;
     soft_row "Time Management" "Intermediate" 6 false 0.6]);
  ("Frontend Developer", [
     soft_row "Communication" "Intermediate" 8 true 0.8;
     soft_row "Problem Solving" "Intermediate" 7 true 0.7;
     soft_row "Creativity" "Intermediate" 7 false 0.7;
     soft_row "User Empathy" "Intermediate" 6 false 0.6]);
  ("Backend Developer", [
     soft_row "Communication" "Intermediate" 7 true 0.7;
     soft_row "Problem Solving" "Advanced" 8 true 0.8;
     soft_row "System Thinking" "Advanced" 7 false 0.7]);
  ("DevOps Engineer", [
     soft_row "Communication" "Intermediate" 7 true 0.7;
     soft_row "Problem Solving" "Advanced" 8 true 0.8;
     soft_row "Incident Response" "Advanced" 7 false 0.7]);
  ("Product Manager", [
     soft_row "Communication" "Advanced" 10 true 1.0;
     soft_row "Leadership" "Advanced" 9 true 0.9;
     soft_row "Problem Solving" "Advanced" 9 true 0.9;
     soft_row "Strategic Thinking" "Advanced" 8 true 0.8])
  ].

Definition default_soft_skills : list Req.t := [
  soft_row "Communication" "Intermediate" 8 true 0.8;
  soft_row "Problem Solving" "Intermediate" 9 true 0.9;
  soft_row "Teamwork" "Intermediate" 7 false 0.7;
  soft_row "Leadership" "Intermediate" 6 false 0.6;
  soft_row "Critical Thinking" "Intermediate" 8 true 0.8
  ].

(** [soft_skills_mapping.get(career, default_soft_skills)] *)
Definition _get_soft_skills_for_career (career : string) : list Req.t :=
  match dict_get soft_skills_mapping career with
  | Some soft_skills => soft_skills
  | None => default_soft_skills
  end.

(** *** [gap_analysis] *)

(** An element of [user_has]. *)
Module Has.
Record t := mk {
  skill : string;
  difficulty : string;
  importance : Z;
  is_required : bool;
  category : skill_category
}.
End Has.

(** An element of [required_missing] and of [optional_missing]. *)
Module Missing.
Record t := mk {
  skill : string;
  difficulty : string;
  importance : Z;
  category : skill_category
}.
End Missing.

(** The dictionary a successful [gap_analysis] returns. *)
Module Gap.
Record t := mk {
  target_career : string;
  completion_percentage : Q;
  required_completion : Q;
  optional_coverage : Q;
  user_has : list Has.t;
  required_missing : list Missing.t;
  optional_missing : list Missing.t;
  total_skills_needed : Z;
  skills_covered : Z;
  total_required : Z;
  total_optional : Z;
  required_covered : Z;
  optional_covered : Z;
  total_required_importance : Z;
  user_required_importance : Z;
  required_missing_count : Z;
  optional_missing_count : Z
}.
End Gap.

(** What [gap_analysis] returns: [{"error": msg}] or the analysis. *)
Inductive gap_result :=
  | GapError (error : string)
  | GapOk (g : Gap.t).

(** The argument [user_skills]: annotated as a list of strings, and also
    accepted as one string ([isinstance(user_skills, str)]). *)
Inductive skills_input :=
  | SkillsText (text : string)
  | SkillsList (skills : list string).

(** [sum] of a list of integers. *)
Definition zsum (l : list Z) : Z := fold_left Z.add l 0.

(** The mapping of expanded, lower-cased names to the user's entries:
    a later entry overwrites an earlier one on a shared synonym. *)
Definition add_skill_info (skill_mapping : gmap string SkillInfo.t)
  (skill_info : SkillInfo.t) : gmap string SkillInfo.t :=
  fold_left (fun m synonym => <[lower synonym := skill_info]> m)
    (_get_skill_synonyms (SkillInfo.skill skill_info)) skill_mapping.

Definition build_skill_mapping (parsed_user_skills : list SkillInfo.t)
  : gmap string SkillInfo.t :=
  fold_left add_skill_info parsed_user_skills ∅.

(** The three lists filled by the loop over the requirements. *)
Record gap_lists := {
  gl_required_missing : list Missing.t;
  gl_optional_missing : list Missing.t;
  gl_user_has : list Has.t
}.

Definition missing_of (skill_row : Req.t) : Missing.t :=
  Missing.mk (Req.skill skill_row) (Req.difficulty skill_row)
    (Req.importance skill_row) (Req.category skill_row).

(** One iteration of [for _, skill_row in career_requirements.iterrows()]. *)
Definition gap_row (skill_mapping : gmap string SkillInfo.t)
  (user_skill_set : gset string) (gl : gap_lists) (skill_row : Req.t)
  : gap_lists :=
  let skill := Req.skill skill_row in
  if decide (lower skill ∈ user_skill_set) then
    let skill_level :=
      match skill_mapping !! lower skill with
      | Some user_skill_info => SkillInfo.level user_skill_info
      | None => _determine_skill_level skill (Req.difficulty skill_row)
      end in
    {| gl_required_missing := gl_required_missing gl;
       gl_optional_missing := gl_optional_missing gl;
       gl_user_has :=
         gl_user_has gl ++
         [Has.mk skill skill_level (Req.importance skill_row)
            (Req.is_required skill_row) (Req.category skill_row)] |}
  else if Req.is_required skill_row then
    {| gl_required_missing := gl_required_missing gl ++ [missing_of skill_row];
       gl_optional_missing := gl_optional_missing gl;
       gl_user_has := gl_user_has gl |}
  else
    {| gl_required_missing := gl_required_missing gl;
       gl_optional_missing := gl_optional_missing gl ++ [missing_of skill_row];
       gl_user_has := gl_user_has gl |}.

(** The branch on the type of [user_skills]. *)
Definition parsed_skills_of (user_skills : skills_input) : list SkillInfo.t :=
  match user_skills with
  | SkillsText text => _parse_user_skills text
  | SkillsList skills =>
      map (fun skill => SkillInfo.mk skill (_determine_skill_level skill ""))
        skills
  end.

(** [pd.concat([career_requirements, soft_skills], ignore_index=True)] *)
Definition career_requirements_of (career_skills_df : list catalog_row)
  (target_career : string) : list Req.t :=
  rows_of career_skills_df target_career
  ++ _get_soft_skills_for_career target_career.

Definition gap_analysis (career_skills_df : list catalog_row)
  (user_skills : skills_input) (target_career : string) : gap_result :=
  if decide (target_career ∈ map career career_skills_df) then
    let career_requirements :=
      career_requirements_of career_skills_df target_career in
    let parsed_user_skills := parsed_skills_of user_skills in
    let skill_mapping := build_skill_mapping parsed_user_skills in
    let user_skill_set : gset string := dom skill_mapping in
    let required_skills := required_rows career_requirements in
    let optional_skills := optional_rows career_requirements in
    let gl :=
      fold_left (gap_row skill_mapping user_skill_set) career_requirements
        {| gl_required_missing := []; gl_optional_missing := [];
           gl_user_has := [] |} in
    let user_has := gl_user_has gl in
    let total_required_importance := zsum (map Req.importance required_skills) in
    let user_required_importance :=
      zsum (map Has.importance
              (filter (fun s => Has.is_required s = true) user_has)) in
    let completion_percentage :=
      if 0 <? total_required_importance
      then (inject_Z user_required_importance
            / inject_Z total_required_importance * 100)%Q
      else 0%Q in
    let total_required := len required_skills in
    let total_optional := len optional_skills in
    let required_covered :=
      len (filter (fun s => Has.is_required s = true) user_has) in
    let optional_covered :=
      len (filter (fun s => Has.is_required s = false) user_has) in
    let required_completion :=
      if 0 <? total_required
      then (inject_Z required_covered / inject_Z total_required * 100)%Q
      else 0%Q in
    let optional_coverage :=
      if 0 <? total_optional
      then (inject_Z optional_covered / inject_Z total_optional * 100)%Q
      else 0%Q in
    let required_missing_count := Z.max 0 (total_required - required_covered) in
    let optional_missing_count := Z.max 0 (total_optional - optional_covered) in
    GapOk (Gap.mk
      target_career
      (round1 completion_percentage)
      (round1 required_completion)
      (round1 optional_coverage)
      user_has
      (sorted_desc (fun x => inject_Z (Missing.importance x))
         (gl_required_missing gl))
      (sorted_desc (fun x => inject_Z (Missing.importance x))
         (gl_optional_missing gl))
      (len career_requirements)
      (len user_has)
      total_required
      total_optional
      required_covered
      optional_covered
      total_required_importance
      user_required_importance
      required_missing_count
      optional_missing_count)
  else GapError "Career not found".
End Pipeline.

(** ** The benchmarking assistant
    ([src/ai_career_benchmarking_assistant.py]) *)

Module Benchmark.
Import PyNum.

(** The values of [self.career_profiles]. *)
Module Profile.
Record t := mk {
  core_skills : list string;
  emerging_skills : list string;
  soft_skills : list string;
  base_salary : Z;
  experience_range : Z * Z;
  education_dist : list (string * Q)
}.
End Profile.

Definition data_scientist : Profile.t :=
  Profile.mk
    ["Python"; "SQL"; "Machine Learning"; "Statistics"; "Pandas"; "NumPy";
     "Data Analysis"]
    ["MLOps"; "Deep Learning"; "TensorFlow"; "PyTorch"; "AWS"; "Docker";
     "Kubernetes"]
    ["Communication"; "Problem Solving"; "Critical Thinking";
     "Business Acumen"]
    95000 (2, 12)
    [("Bachelor's", 0.35%Q); ("Master's", 0.45%Q); ("PhD", 0.15%Q);
     ("Bootcamp", 0.05%Q)].

Definition ml_engineer : Profile.t :=
  Profile.mk
    ["Python"; "Machine Learning"; "TensorFlow"; "PyTorch"; "Docker"; "Git";
     "Linux"; "APIs"]
    ["MLOps"; "Kubernetes"; "Apache Spark"; "Model Deployment"; "CI/CD";
     "Cloud Computing"]
    ["Problem Solving"; "Collaboration"; "System Design";
     "Attention to Detail"]
    110000 (3, 15)
    [("Bachelor's", 0.50%Q); ("Master's", 0.35%Q); ("PhD", 0.10%Q);
     ("Bootcamp", 0.05%Q)].

Definition data_analyst : Profile.t :=
  Profile.mk
    ["SQL"; "Excel"; "Python"; "Tableau"; "Power BI"; "Statistics";
     "Data Visualization"]
    ["R"; "Machine Learning"; "Advanced Analytics"; "Cloud Analytics";
     "Automation"]
    ["Communication"; "Business Acumen"; "Critical Thinking";
     "Presentation Skills"]
    70000 (1, 10)
    [("Bachelor's", 0.60%Q); ("Master's", 0.25%Q); ("PhD", 0.05%Q);
     ("Bootcamp", 0.10%Q)].

Definition software_engineer : Profile.t :=
  Profile.mk
    ["Python"; "JavaScript"; "Java"; "Git"; "SQL"; "Data Structures";
     "Algorithms"; "APIs"]
    ["React"; "Node.js"; "Docker"; "Kubernetes"; "Cloud Computing";
     "Microservices"]
    ["Problem Solving"; "Teamwork"; "Communication"; "Adaptability"]
    85000 (1, 12)
    [("Bachelor's", 0.55%Q); ("Master's", 0.25%Q); ("PhD", 0.05%Q);
     ("Bootcamp", 0.15%Q)].

(** [self.career_profiles], in insertion order. *)
Definition career_profiles : list (string * Profile.t) := [
  ("Data Scientist", data_scientist);
  ("ML Engineer", ml_engineer);
  ("Data Analyst", data_analyst);
  ("Software Engineer", software_engineer)
  ].

(** An element of the list [_generate_realistic_peer_group] returns. *)
Module Peer.
Record t := mk {
  experience_years : Z;
  education : string;
  salary : Z;
  skills : list string;
  skill_count : Z
}.
End Peer.

(** [int(x)] for a float: truncation towards zero. *)
Definition int_of (q : Q) : Z := Z.quot (Qnum q) (Zpos (Qden q)).

(** The tuples stored in [used_combinations]. *)
Definition peer_id : Type := Z * string * Z.

Section Generator.

(** The state of the random number generators, and the four calls the
    generator makes into them. *)
Variable rng : Type.
(** [np.random.normal(loc, scale)] *)
Variable np_random_normal : Q -> Q -> rng -> Q * rng.
(** [np.random.choice(a, p=p)] *)
Variable np_random_choice : list string -> list Q -> rng -> string * rng.
(** [random.randint(a, b)] *)
Variable random_randint : Z -> Z -> rng -> Z * rng.
(** [random.random()] *)
Variable random_random : rng -> Q * rng.

(** Computations that draw random numbers. *)
Definition Rand (A : Type) : Type := rng -> A * rng.

Definition ret {A} (a : A) : Rand A := fun g => (a, g).

Definition bind {A B} (m : Rand A) (k : A -> Rand B) : Rand B :=
  fun g => let '(a, g') := m g in k a g'.

Notation "x <- m ;; k" := (bind m (fun x => k))
  (at level 100, m at next level, right associativity).

(** [for skill in skills: if random.random() < prob: peer_skills.append(skill)] *)
Fixpoint pick_skills (prob : Q) (skills peer_skills : list string)
  : Rand (list string) :=
  match skills with
  | [] => ret peer_skills
  | skill :: skills' =>
      u <- random_random ;;
      pick_skills prob skills'
        (if Pipeline.Qltb u prob then peer_skills ++ [skill] else peer_skills)
  end.

Definition _generate_peer_skills (career_profile : Profile.t)
  (experience : Z) : Rand (list string) :=
  let peer_skills := [] in
  peer_skills <-
    pick_skills (0.7 + Qmin (inject_Z experience * 0.05) 0.25)%Q
      (Profile.core_skills career_profile) peer_skills ;;
  peer_skills <-
    pick_skills (Qmax 0.1 (Qmin (inject_Z experience * 0.08) 0.75))%Q
      (Profile.emerging_skills career_profile) peer_skills ;;
  peer_skills <-
    pick_skills 0.6%Q (Profile.soft_skills career_profile) peer_skills ;;
  ret (if len peer_skills <? 4 then
         let missing_core :=
           filter (fun s => s ∉ peer_skills)
             (Profile.core_skills career_profile) in
         peer_skills ++ firstn 2 missing_core
       else peer_skills).

(** The variables one pass of the retry loop assigns. *)
Record candidate := {
  c_experience : Z;
  c_education : string;
  c_salary : Z
}.

(** [(experience, education, salary // 5000)] *)
Definition id_of (c : candidate) : peer_id :=
  (c_experience c, c_education c, c_salary c / 5000).

(** The draws of one pass of the [while] body. *)
Definition draw_candidate (career_profile : Profile.t) : Rand candidate :=
  let '(min_exp, max_exp) := Profile.experience_range career_profile in
  x <- np_random_normal ((inject_Z (min_exp + max_exp)) / 2)%Q 2%Q ;;
  let experience := Z.max min_exp (int_of x) in
  let experience := Z.min experience max_exp in
  education <-
    np_random_choice (map fst (Profile.education_dist career_profile))
      (map snd (Profile.education_dist career_profile)) ;;
  let base_salary := Profile.base_salary career_profile in
  r <- random_randint (-12000) 20000 ;;
  let salary := base_salary + experience * 7000 + r in
  let salary := Z.max salary 40000 in
  ret {| c_experience := experience; c_education := education;
         c_salary := salary |}.

(** The state of the retry loop: [attempts], the variables of the last
    pass ([None] before the first one) and [used_combinations]. *)
Record retry_state := {
  attempts : Z;
  last : option candidate;
  used_combinations : gset peer_id
}.

(** [while attempts < 50: ...], by recursion on the passes left. *)
Fixpoint retry (passes_left : nat) (career_profile : Profile.t)
  (st : retry_state) : Rand retry_state :=
  match passes_left with
  | O => ret st
  | S passes_left' =>
      if attempts st <? 50 then
        c <- draw_candidate career_profile ;;
        if decide (id_of c ∉ used_combinations st) then
          ret {| attempts := attempts st; last := Some c;
                 used_combinations := {[id_of c]} ∪ used_combinations st |}
        else
          retry passes_left' career_profile
            {| attempts := attempts st + 1; last := Some c;
               used_combinations := used_combinations st |}
      else ret st
  end.

(** One iteration of [for i in range(sample_size)]; [None] is the
    [NameError] of reading [experience] before any pass assigned it. *)
Definition generate_peer (career_profile : Profile.t)
  (acc : list Peer.t * gset peer_id)
  : Rand (option (list Peer.t * gset peer_id)) :=
  let '(peers, used) := acc in
  st <- retry 50 career_profile
          {| attempts := 0; last := None; used_combinations := used |} ;;
  match last st with
  | None => ret None
  | Some c =>
      peer_skills <- _generate_peer_skills career_profile (c_experience c) ;;
      ret (Some (peers ++
                 [Peer.mk (c_experience c) (c_education c) (c_salary c)
                    peer_skills (len peer_skills)],
                 used_combinations st))
  end.

Fixpoint generate_peers (n : nat) (career_profile : Profile.t)
  (acc : list Peer.t * gset peer_id)
  : Rand (option (list Peer.t * gset peer_id)) :=
  match n with
  | O => ret (Some acc)
  | S n' =>
      r <- generate_peer career_profile acc ;;
      match r with
      | None => ret None
      | Some acc' => generate_peers n' career_profile acc'
      end
  end.

(** [None] stands for an exception: the [KeyError] of an unknown career
    (or the [NameError] above). *)
Definition _generate_realistic_peer_group (career : string)
  (sample_size : Z) : Rand (option (list Peer.t)) :=
  match Pipeline.dict_get career_profiles career with
  | None => ret None
  | Some career_profile =>
      r <- generate_peers (Z.to_nat sample_size) career_profile ([], ∅) ;;
      ret (option_map fst r)
  end.

(** The random state after [k] passes of the retry loop body. *)
Fixpoint after_draws (k : nat) (career_profile : Profile.t) (g : rng) : rng :=
  match k with
  | O => g
  | S k' => after_draws k' career_profile (snd (draw_candidate career_profile g))
  end.

End Generator.
End Benchmark.

(** ** Views of the loops

    The quantities the loops accumulate, written as sums and filters over
    the rows; the lemmas below relate the loops to them. *)

Module Views.
Import PyStr PyNum Pipeline.

(** The rows whose lower-cased skill name is in the user's set. *)
Definition matched_rows (user_skill_set : gset string) (rows : list Req.t)
  : list Req.t :=
  filter (fun r => lower (Req.skill r) ∈ user_skill_set) rows.

Definition qsum (l : list Q) : Q := fold_right Qplus 0%Q l.

(** The sum of [weight * 10] over some rows. *)
Definition weighted_sum (rows : list Req.t) : Q :=
  qsum (map (fun r => (Req.weight r * 10)%Q) rows).

(** The lower-cased names of some rows, as a set. *)
Definition name_set (rows : list Req.t) : gset string :=
  list_to_set (map (fun r => lower (Req.skill r)) rows).

(** The set of names [gap_analysis] tests the requirements against. *)
Definition gap_user_skill_set (user_skills : skills_input) : gset string :=
  dom (build_skill_mapping (parsed_skills_of user_skills)).

(** The sum of the importances of some rows. *)
Definition importance_sum (rows : list Req.t) : Z :=
  zsum (map Req.importance rows).

(** The [user_has] entry of a matched row. *)
Definition has_of (skill_mapping : gmap string SkillInfo.t) (r : Req.t)
  : Has.t :=
  Has.mk (Req.skill r)
    match skill_mapping !! lower (Req.skill r) with
    | Some user_skill_info => SkillInfo.level user_skill_info
    | None => _determine_skill_level (Req.skill r) (Req.difficulty r)
    end
    (Req.importance r) (Req.is_required r) (Req.category r).

(** The requirements [gap_analysis] finds the user to have. *)
Definition gap_matched (df : list catalog_row) (user_skills : skills_input)
  (target_career : string) : list Req.t :=
  matched_rows (gap_user_skill_set user_skills)
    (career_requirements_of df target_career).

(** A percentage [a / b * 100], and [0] when [b] is not positive. *)
Definition percent (a b : Z) : Q :=
  if 0 <? b then (inject_Z a / inject_Z b * 100)%Q else 0%Q.

(** What a successful [gap_analysis] reports, over the analysed
    requirements [reqs] and the user's set of names [uss]. *)
Definition gap_fields (reqs : list Req.t) (m : gmap string SkillInfo.t)
  (uss : gset string) (g : Gap.t) : Prop :=
  let has := matched_rows uss reqs in
  Gap.user_has g = map (has_of m) has
  /\ Gap.total_skills_needed g = len reqs
  /\ Gap.skills_covered g = len has
  /\ Gap.total_required g = len (required_rows reqs)
  /\ Gap.total_optional g = len (optional_rows reqs)
  /\ Gap.required_covered g = len (required_rows has)
  /\ Gap.optional_covered g = len (optional_rows has)
  /\ Gap.total_required_importance g = importance_sum (required_rows reqs)
  /\ Gap.user_required_importance g = importance_sum (required_rows has)
  /\ Gap.completion_percentage g =
       round1 (percent (importance_sum (required_rows has))
                 (importance_sum (required_rows reqs)))
  /\ Gap.required_completion g =
       round1 (percent (len (required_rows has)) (len (required_rows reqs)))
  /\ Gap.optional_coverage g =
       round1 (percent (len (optional_rows has)) (len (optional_rows reqs)))
  /\ Gap.required_missing_count g =
       Z.max 0 (len (required_rows reqs) - len (required_rows has))
  /\ Gap.optional_missing_count g =
       Z.max 0 (len (optional_rows reqs) - len (optional_rows has)).

Definition is_gap_error (r : gap_result) : Prop :=
  match r with GapError _ => True | GapOk _ => False end.

End Views.

(** ** Sample data *)

Module Demo.
Import Pipeline Benchmark.

Definition row (c s d : string) (i : Z) (r : bool) (cat : skill_category)
  (w : Q) : catalog_row :=
  {| career := c; requirement := Req.mk s d i r cat w |}.

(** A small [career_skills.csv]. *)
Definition df : list catalog_row := [
  row "Data Scientist" "Python" "Intermediate" 10 true core 1.0;
  row "Data Scientist" "SQL" "Advanced" 6 true core 1.0;
  row "Data Scientist" "Statistics" "Intermediate" 4 true intermediate 0.7;
  row "Data Scientist" "Tableau" "Beginner" 4 false supporting 0.4;
  row "Backend Developer" "Java" "Intermediate" 9 true core 1.0;
  row "Backend Developer" "SQL" "Intermediate" 8 true core 1.0;
  row "Backend Developer" "Docker" "Advanced" 7 true intermediate 0.7;
  row "Backend Developer" "Git" "Beginner" 6 true supporting 0.4
  ].

(** Skills whose required importance is 36 of the 45 of [Data Scientist]. *)
Definition ds_skills : skills_input :=
  SkillsList ["Python"; "SQL"; "Statistics"; "Communication";
              "Critical Thinking"].

(** A similarity that finds nothing in common. *)
Definition no_similarity (user_profile : string) (i : nat) : Q := 0%Q.

(** A random source that always returns the same draws: the mean, the
    first choice, the lower bound and [0]. *)
Definition const_normal (loc scale : Q) (g : unit) : Q * unit := (loc, g).
Definition const_choice (a : list string) (p : list Q) (g : unit)
  : string * unit := (hd "" a, g).
Definition const_randint (a b : Z) (g : unit) : Z * unit := (a, g).
Definition const_random (g : unit) : Q * unit := (0%Q, g).

Definition const_peer_group (career : string) (sample_size : Z)
  : option (list Peer.t) :=
  fst (_generate_realistic_peer_group unit const_normal const_choice
         const_randint const_random career sample_size tt).

End Demo.

(** ** Facts about the Python helpers *)

(** Settles a decidable closed proposition by evaluation. *)
Ltac by_decide :=
  match goal with
  | |- ?P => apply (bool_decide_unpack P); vm_compute; exact I
  end.

Module PyNumFacts.
Import PyNum.

Lemma round_half_even_bounds (q : Q) (lo hi : Z) :
  (inject_Z lo <= q)%Q -> (q <= inject_Z hi)%Q ->
  lo <= round_half_even q <= hi.
Proof.
  destruct q as [n d]. unfold Qle, round_half_even, inject_Z. cbn [Qnum Qden].
  intros Hlo Hhi.
  pose proof (Z.div_mod n (Zpos d) ltac:(lia)) as Hdm.
  pose proof (Z.mod_pos_bound n (Zpos d) ltac:(lia)) as Hr.
  set (fl := n / Zpos d) in *. set (r := n mod Zpos d) in *.
  assert (lo <= fl) by nia.
  assert (fl <= hi) by nia.
  destruct (Z.compare_spec (2 * r) (Zpos d)); [destruct (Z.even fl)| |]; nia.
Qed.

Lemma round1_bounds (q : Q) :
  (0 <= q)%Q -> (q <= 100)%Q -> (0 <= round1 q /\ round1 q <= 100)%Q.
Proof.
  intros H0 H100.
  destruct (round_half_even_bounds (q * 10) 0 1000) as [Hl Hu].
  - change (inject_Z 0) with 0%Q. lra.
  - change (inject_Z 1000) with 1000%Q. lra.
  - unfold round1, Qle. cbn [Qnum Qden]. lia.
Qed.

Lemma elem_of_insert_desc {A} (key : A -> Q) (x y : A) (l : list A) :
  y ∈ insert_desc key x l <-> y = x \/ y ∈ l.
Proof.
  induction l as [|z l IH]; cbn.
  - rewrite elem_of_cons, elem_of_nil. tauto.
  - destruct (Qle_bool (key z) (key x)).
    + rewrite !elem_of_cons. tauto.
    + rewrite !elem_of_cons, IH. tauto.
Qed.

Lemma elem_of_sorted_desc {A} (key : A -> Q) (y : A) (l : list A) :
  y ∈ sorted_desc key l <-> y ∈ l.
Proof.
  induction l as [|x l IH]; cbn.
  - reflexivity.
  - rewrite elem_of_insert_desc, IH, elem_of_cons. tauto.
Qed.

Lemma elem_of_slice_to {A} (n : Z) (y : A) (l : list A) :
  y ∈ slice_to n l -> y ∈ l.
Proof.
  unfold slice_to. destruct (0 <=? n); apply subseteq_take.
Qed.

End PyNumFacts.

Module MatchingFacts.
Import PyStr PyNum Pipeline Views PyNumFacts.

Lemma Qltb_lt (x y : Q) : Qltb x y = true <-> (x < y)%Q.
Proof.
  unfold Qltb. rewrite negb_true_iff, <- not_true_iff_false, Qle_bool_iff.
  split; [apply Qnot_le_lt | apply Qlt_not_le].
Qed.

Lemma Qltb_ge (x y : Q) : Qltb x y = false <-> (y <= x)%Q.
Proof.
  unfold Qltb. rewrite negb_false_iff. apply Qle_bool_iff.
Qed.

Lemma weighted_sum_nonneg (rows : list Req.t) :
  Forall (fun r => (0 <= Req.weight r)%Q) rows -> (0 <= weighted_sum rows)%Q.
Proof.
  unfold weighted_sum, qsum.
  induction 1 as [|r rows Hr _ IH]; cbn [map fold_right]; [apply Qle_refl | lra].
Qed.

Lemma matched_rows_cons (uss : gset string) (r : Req.t) (rows : list Req.t) :
  matched_rows uss (r :: rows) =
  if decide (lower (Req.skill r) ∈ uss) then r :: matched_rows uss rows
  else matched_rows uss rows.
Proof. reflexivity. Qed.

Lemma required_rows_cons (r : Req.t) (rows : list Req.t) :
  required_rows (r :: rows) =
  if Req.is_required r then r :: required_rows rows else required_rows rows.
Proof.
  unfold required_rows. rewrite filter_cons.
  destruct (Req.is_required r); destruct (decide _); congruence.
Qed.

Lemma weighted_sum_cons (r : Req.t) (rows : list Req.t) :
  weighted_sum (r :: rows) = (Req.weight r * 10 + weighted_sum rows)%Q.
Proof. reflexivity. Qed.

Lemma name_set_cons (r : Req.t) (rows : list Req.t) :
  name_set (r :: rows) = {[lower (Req.skill r)]} ∪ name_set rows.
Proof. reflexivity. Qed.

(** The row loop of [_calculate_weighted_matching] computes the two
    weighted sums and the two sets of names. *)
Lemma fold_match_row (uss : gset string) (rows : list Req.t) (a : Acc.t) :
  let a' := fold_left (match_row uss) rows a in
  (Acc.total_weighted_score a' ==
     Acc.total_weighted_score a + weighted_sum (matched_rows uss rows))%Q
  /\ (Acc.total_possible_weighted_score a' ==
        Acc.total_possible_weighted_score a + weighted_sum rows)%Q
  /\ Acc.exact_matches a' =
       name_set (matched_rows uss rows) ∪ Acc.exact_matches a
  /\ Acc.required_matches a' =
       name_set (required_rows (matched_rows uss rows))
       ∪ Acc.required_matches a.
Proof.
  revert a. induction rows as [|r rows IH]; intros a; cbn zeta.
  - cbn [fold_left]. change (matched_rows uss []) with (@nil Req.t).
    change (required_rows []) with (@nil Req.t).
    change (weighted_sum []) with 0%Q. change (name_set []) with (∅ : gset string).
    rewrite !(left_id_L ∅ (∪)). split; [lra|split; [lra|split; reflexivity]].
  - cbn [fold_left]. specialize (IH (match_row uss a r)).
    cbn zeta in IH. destruct IH as (Htw & Htp & Hex & Hreq).
    rewrite Htw, Htp, Hex, Hreq. clear Htw Htp Hex Hreq.
    rewrite matched_rows_cons, weighted_sum_cons. unfold match_row.
    destruct (decide (lower (Req.skill r) ∈ uss)) as [Hin|Hin];
      cbn [Acc.total_weighted_score Acc.total_possible_weighted_score
           Acc.exact_matches Acc.required_matches].
    + rewrite required_rows_cons, weighted_sum_cons, name_set_cons.
      destruct (Req.is_required r).
      * rewrite name_set_cons. split; [lra|split; [lra|split; set_solver]].
      * split; [lra|split; [lra|split; set_solver]].
    + split; [lra|split; [lra|split; reflexivity]].
Qed.


(** Case analysis on every [Qmin] of the goal. *)
Ltac qmin_cases :=
  repeat match goal with
         | |- context [Qmin ?a ?b] =>
             let H := fresh "Hmin" in
             pose proof (Q.min_spec a b) as H;
             generalize dependent (Qmin a b); intros
         | _ : context [Qmin ?a ?b] |- _ =>
             let H := fresh "Hmin" in
             pose proof (Q.min_spec a b) as H;
             generalize dependent (Qmin a b); intros
         end.

Lemma percent_fraction_nonneg (a b : Q) :
  (0 <= a)%Q -> (0 < b)%Q -> (0 <= a / b * 100)%Q.
Proof.
  intros Ha Hb. apply Qmult_le_0_compat; [|lra].
  apply Qle_shift_div_l; [exact Hb | lra].
Qed.

Lemma set_len_nonneg (s : gset string) : 0 <= set_len s.
Proof. unfold set_len. lia. Qed.

Lemma len_nonneg {A} (l : list A) : 0 <= len l.
Proof. unfold len. lia. Qed.

Lemma inject_Z_nonneg (z : Z) : 0 <= z -> (0 <= inject_Z z)%Q.
Proof. intros H. unfold Qle. cbn. lia. Qed.

Lemma inject_Z_pos (z : Z) : 0 < z -> (0 < inject_Z z)%Q.
Proof. intros H. unfold Qlt. cbn. lia. Qed.

(** Both percentages of the weighted analysis are non-negative when no
    weight is negative. *)
Lemma weighted_analysis_nonneg (uss : gset string) (rows req : list Req.t) :
  Forall (fun r => (0 <= Req.weight r)%Q) rows ->
  let wa := _calculate_weighted_matching uss rows req in
  (0 <= WA.weighted_match_percentage wa)%Q
  /\ (0 <= WA.required_match_percentage wa)%Q.
Proof.
  intros Hw. cbn zeta. unfold _calculate_weighted_matching.
  cbn [WA.weighted_match_percentage WA.required_match_percentage].
  destruct (fold_match_row uss rows Acc.init) as (Htw & _ & _ & _).
  cbn zeta in Htw. cbn [Acc.init Acc.total_weighted_score] in Htw.
  split.
  - destruct (Qltb 0 _) eqn:Hpos; [|apply Qle_refl].
    apply Qltb_lt in Hpos. apply percent_fraction_nonneg; [|exact Hpos].
    rewrite Htw.
    assert (0 <= weighted_sum (matched_rows uss rows))%Q; [|lra].
    apply weighted_sum_nonneg. unfold matched_rows.
    apply Forall_forall. intros r Hr.
    apply list_elem_of_filter in Hr as [_ Hr].
    rewrite Forall_forall in Hw. apply Hw. exact Hr.
  - destruct (0 <? len req) eqn:Hpos; [|apply Qle_refl].
    apply Z.ltb_lt in Hpos. apply percent_fraction_nonneg.
    + apply inject_Z_nonneg, set_len_nonneg.
    + apply inject_Z_pos, Hpos.
Qed.

Lemma required_coverage_bonus_nonneg (wa : WA.t) :
  (0 <= required_coverage_bonus wa)%Q.
Proof.
  unfold required_coverage_bonus.
  repeat match goal with |- context [if ?b then _ else _] => destruct b end;
    cbn zeta; lra.
Qed.

Lemma complementary_bonus_nonneg (wa : WA.t) : (0 <= complementary_bonus wa)%Q.
Proof. unfold complementary_bonus. destruct (Qle_bool _ _); lra. Qed.

Lemma semantic_bonus_nonneg (sem : Q) : (0 <= semantic_bonus sem)%Q.
Proof. unfold semantic_bonus. destruct (Qltb _ _); lra. Qed.

Lemma bonus_score_nonneg (wa : WA.t) (sem : Q) : (0 <= bonus_score wa sem)%Q.
Proof.
  unfold bonus_score.
  pose proof (required_coverage_bonus_nonneg wa).
  pose proof (complementary_bonus_nonneg wa).
  pose proof (semantic_bonus_nonneg sem). lra.
Qed.

(** The safety checks never raise a score, and keep it non-negative. *)
Lemma safety_checks_range (n : Z) (r f : Q) :
  (0 <= f)%Q -> (0 <= safety_checks n r f /\ safety_checks n r f <= f)%Q.
Proof.
  intros Hf. unfold safety_checks. cbn zeta.
  repeat match goal with |- context [if ?b then _ else _] => destruct b end;
    qmin_cases; lra.
Qed.

Lemma final_score_range (wa : WA.t) (n : Z) (sem : Q) :
  (0 <= WA.weighted_match_percentage wa)%Q ->
  (0 <= WA.required_match_percentage wa)%Q ->
  (0 <= sem)%Q ->
  (0 <= final_score wa n sem /\ final_score wa n sem <= 100)%Q.
Proof.
  intros Hw Hr Hs. unfold final_score.
  assert (0 <= uncapped_final_score wa sem <= 100)%Q as [H0 H100].
  { unfold uncapped_final_score, base_score.
    pose proof (bonus_score_nonneg wa sem). qmin_cases. lra. }
  destruct (safety_checks_range n (WA.required_match_percentage wa) _ H0).
  split; lra.
Qed.

Section WithCatalog.
Variable career_skills_df : list catalog_row.
Variable tfidf_cosine : string -> nat -> Q.

Lemma rows_of_weights (c : string) :
  Forall (fun r => (0 <= Req.weight (requirement r))%Q) career_skills_df ->
  Forall (fun r => (0 <= Req.weight r)%Q) (rows_of career_skills_df c).
Proof.
  intros H. unfold rows_of. apply Forall_map.
  rewrite Forall_forall in H. apply Forall_forall. intros r Hr.
  apply H. apply list_elem_of_filter in Hr. tauto.
Qed.

(** What an entry built by the loop body holds. *)
Lemma match_career_fields (user_skills : list string) (uss : gset string)
  (i : nat) (c : string) (m : Match.t) :
  match_career career_skills_df tfidf_cosine user_skills uss (i, c) = Some m ->
  let wa := weighted_analysis_of career_skills_df uss c in
  let sem := tfidf_cosine (user_profile user_skills) i in
  rows_of career_skills_df c <> []
  /\ Match.career m = c
  /\ Match.match_percentage m =
       round1 (final_score wa (len (rows_of career_skills_df c)) sem)
  /\ Match.base_score m = round1 (base_score wa sem)
  /\ Match.bonus_score m = round1 (bonus_score wa sem)
  /\ Match.total_career_skills m = len (rows_of career_skills_df c).
Proof.
  unfold match_career, weighted_analysis_of.
  destruct (rows_of career_skills_df c) as [|r rows] eqn:E; [discriminate|].
  intros [= <-]. cbn. repeat split; congruence.
Qed.

(** Every returned entry was built by the loop body for some career. *)
Lemma skill_matching_elem (user_skills : list string) (top_n : Z)
  (m : Match.t) :
  m ∈ skill_matching career_skills_df tfidf_cosine user_skills top_n ->
  exists i c,
    match_career career_skills_df tfidf_cosine user_skills
      (user_skill_set_of user_skills) (i, c) = Some m.
Proof.
  unfold skill_matching. destruct user_skills as [|s l].
  - intros H. apply elem_of_nil in H. destruct H.
  - intros H. apply elem_of_slice_to, elem_of_sorted_desc in H.
    apply list_elem_of_omap in H as ([i c] & _ & H). eauto.
Qed.

End WithCatalog.

End MatchingFacts.

(** ** Claims about [skill_matching] *)

Module MatchingClaims.
Import PyStr PyNum Pipeline Views PyNumFacts MatchingFacts.

(** C1. Every entry [skill_matching] returns has a [match_percentage]
    between 0 and 100, for any user skills and any catalog whose weights
    are not negative, the similarity being a cosine of non-negative
    vectors. *)
Theorem skill_matching_percentage_in_range
  (career_skills_df : list catalog_row) (tfidf_cosine : string -> nat -> Q)
  (user_skills : list string) (top_n : Z) :
  Forall (fun r => (0 <= Req.weight (requirement r))%Q) career_skills_df ->
  (forall p i, (0 <= tfidf_cosine p i)%Q) ->
  Forall (fun m => (0 <= Match.match_percentage m
                    /\ Match.match_percentage m <= 100)%Q)
    (skill_matching career_skills_df tfidf_cosine user_skills top_n).
Proof.
  intros Hw Hcos. apply Forall_forall. intros m Hm.
  apply skill_matching_elem in Hm as (i & c & Hm).
  apply match_career_fields in Hm as (_ & _ & -> & _).
  apply round1_bounds; apply final_score_range;
    try apply weighted_analysis_nonneg; auto using rows_of_weights.
Qed.

Lemma skill_matching_percentage_in_range_witness :
  Forall (fun r => (0 <= Req.weight (requirement r))%Q) Demo.df
  /\ (forall p i, (0 <= Demo.no_similarity p i)%Q)
  /\ Forall (fun m => (0 <= Match.match_percentage m
                       /\ Match.match_percentage m <= 100)%Q)
       (skill_matching Demo.df Demo.no_similarity ["Java"] 5).
Proof.
  assert (Hw : Forall (fun r => (0 <= Req.weight (requirement r))%Q) Demo.df).
  { repeat constructor; vm_compute; discriminate. }
  assert (Hc : forall p i, (0 <= Demo.no_similarity p i)%Q).
  { intros p i. vm_compute. discriminate. }
  split; [exact Hw|split; [exact Hc|]].
  apply (skill_matching_percentage_in_range Demo.df Demo.no_similarity
           ["Java"] 5 Hw Hc).
Defined.

(** C2. For every entry [skill_matching] returns, the base score is
    [weighted_match_percentage * 0.6 + required_match_percentage * 0.25
     + semantic_similarity * 100 * 0.15] over the weighted analysis of the
    entry's career, and the score before the safety checks is
    [min(100, base + bonus)]; the entry reports both rounded to one
    decimal place. *)
Theorem skill_matching_base_and_uncapped_score
  (career_skills_df : list catalog_row) (tfidf_cosine : string -> nat -> Q)
  (user_skills : list string) (top_n : Z) :
  Forall (fun m => exists i : nat,
    let wa := weighted_analysis_of career_skills_df
                (user_skill_set_of user_skills) (Match.career m) in
    let sem := tfidf_cosine (user_profile user_skills) i in
    let base := (WA.weighted_match_percentage wa * 0.6
                 + WA.required_match_percentage wa * 0.25
                 + sem * 100 * 0.15)%Q in
    let bonus := bonus_score wa sem in
    base_score wa sem = base
    /\ uncapped_final_score wa sem = Qmin 100 (base + bonus)
    /\ Match.base_score m = round1 base
    /\ Match.bonus_score m = round1 bonus
    /\ Match.match_percentage m =
         round1 (safety_checks (Match.total_career_skills m)
                   (WA.required_match_percentage wa)
                   (Qmin 100 (base + bonus))))
    (skill_matching career_skills_df tfidf_cosine user_skills top_n).
Proof.
  apply Forall_forall. intros m Hm.
  apply skill_matching_elem in Hm as (i & c & Hm).
  apply match_career_fields in Hm as (_ & <- & Hp & Hb & Hbo & Hn).
  exists i. cbn zeta. rewrite Hp, Hb, Hbo, Hn. repeat split.
Qed.

Lemma Qmin_l_lt (a b : Q) : (a < b)%Q -> Qmin a b = a.
Proof.
  intros H. unfold Qmin, GenericMinMax.gmin.
  apply Qlt_alt in H. unfold Qcompare in *. rewrite H. reflexivity.
Qed.

Lemma Qmin_r_lt (a b : Q) : (b < a)%Q -> Qmin a b = b.
Proof.
  intros H. unfold Qmin, GenericMinMax.gmin.
  apply Qgt_alt in H. unfold Qcompare in *. rewrite H. reflexivity.
Qed.

(** Decides the comparisons and minima of the goal that the hypotheses
    settle. *)
Ltac score_step :=
  match goal with
  | |- context [Qmin ?a ?b] =>
      first [ rewrite (Qmin_l_lt a b) by lra
            | rewrite (Qmin_r_lt a b) by lra ]
  | |- context [Qltb ?a ?b] =>
      first [ rewrite (proj2 (Qltb_lt a b)) by lra
            | rewrite (proj2 (Qltb_ge a b)) by lra ]
  end.

Ltac score_norm :=
  repeat first [ progress cbn [andb app fold_left] | score_step ].

(** C3. Applying the three safety checks one after the other gives the
    same score as testing each cap on the uncapped score and taking the
    minimum of that score and of the caps that fire. *)
Theorem safety_checks_eq_caps_on_uncapped (total_career_skills : Z)
  (required_match_percentage final : Q) :
  safety_checks total_career_skills required_match_percentage final
  = caps_on_uncapped total_career_skills required_match_percentage final.
Proof.
  unfold safety_checks, caps_on_uncapped. cbn zeta.
  destruct (total_career_skills <? 8);
    destruct (Qltb 75 final) eqn:H75;
    destruct (Qltb 90 final) eqn:H90;
    destruct (Qltb 70 final) eqn:H70;
    destruct (Qltb required_match_percentage 80) eqn:R80;
    destruct (Qltb required_match_percentage 60) eqn:R60;
    rewrite ?Qltb_lt, ?Qltb_ge in *; try lra.
  all: score_norm; reflexivity.
Qed.


Lemma name_set_required_subseteq (rows : list Req.t) :
  name_set (required_rows rows) ⊆ name_set rows.
Proof.
  unfold name_set, required_rows. intros x.
  rewrite !elem_of_list_to_set, !list_elem_of_In, !in_map_iff.
  intros (r & Hx & Hr). exists r. split; [exact Hx|].
  apply list_elem_of_In. apply list_elem_of_In in Hr.
  apply list_elem_of_filter in Hr. tauto.
Qed.

(** The matched required names are among the matched names. *)
Lemma required_matches_le_exact_matches (uss : gset string)
  (rows req : list Req.t) :
  let wa := _calculate_weighted_matching uss rows req in
  set_len (WA.required_matches wa) <= set_len (WA.exact_matches wa).
Proof.
  cbn zeta. unfold _calculate_weighted_matching.
  cbn [WA.required_matches WA.exact_matches].
  destruct (fold_match_row uss rows Acc.init) as (_ & _ & He & Hr).
  cbn zeta in He, Hr. rewrite He, Hr. cbn [Acc.init Acc.exact_matches
    Acc.required_matches]. rewrite !(right_id_L ∅ (∪)).
  unfold set_len. apply Nat2Z.inj_le, subseteq_size.
  apply name_set_required_subseteq.
Qed.

(** The test of the complementary bonus cannot fail: the 5 points are
    added for every career and every user. *)
Lemma complementary_bonus_always (uss : gset string) (rows req : list Req.t) :
  complementary_bonus (_calculate_weighted_matching uss rows req) = 5%Q.
Proof.
  pose proof (required_matches_le_exact_matches uss rows req) as Hle.
  cbn zeta in Hle. unfold complementary_bonus.
  set (wa := _calculate_weighted_matching uss rows req) in *.
  pose proof (set_len_nonneg (WA.required_matches wa)) as H0.
  set (r := set_len (WA.required_matches wa)) in *.
  set (e := set_len (WA.exact_matches wa)) in *. clearbody r e.
  destruct (Qle_bool _ _) eqn:E; [reflexivity|].
  apply not_true_iff_false in E. exfalso. apply E. apply Qle_bool_iff.
  unfold Qle. cbn. lia.
Qed.

(** C4, at a career with four required skills of which the user has one:
    one exact match is less than half of four, and the 5 points of the
    complementary bonus are added all the same (they are the whole bonus
    here: 25% required coverage and no similarity earn nothing). *)
Theorem complementary_bonus_one_of_four :
  set_len (WA.exact_matches
             (weighted_analysis_of Demo.df (user_skill_set_of ["Java"])
                "Backend Developer")) = 1
  /\ len (required_rows (rows_of Demo.df "Backend Developer")) = 4
  /\ complementary_bonus
       (weighted_analysis_of Demo.df (user_skill_set_of ["Java"])
          "Backend Developer") = 5%Q
  /\ required_coverage_bonus
       (weighted_analysis_of Demo.df (user_skill_set_of ["Java"])
          "Backend Developer") = 0%Q
  /\ map (fun m => (Match.career m, Match.bonus_score m))
       (skill_matching Demo.df Demo.no_similarity ["Java"] 1)
     = [("Backend Developer", 50 # 10)].
Proof. vm_compute. repeat split. Qed.

(** The scoring of the sample catalog for a user who knows Java. *)
Example skill_matching_java :
  map (fun m => (Match.career m, Match.match_percentage m,
                 Match.base_score m, Match.bonus_score m))
    (skill_matching Demo.df Demo.no_similarity ["Java"] 5)
  = [("Backend Developer", 306 # 10, 256 # 10, 50 # 10);
     ("Data Scientist", 50 # 10, 0 # 10, 50 # 10)].
Proof. vm_compute. reflexivity. Qed.

(** Equal keys keep their input order under [sorted_desc]. *)
Example sorted_desc_stable :
  sorted_desc (fun x : string * Z => inject_Z (snd x))
    [("a", 8); ("b", 9); ("c", 8); ("d", 10)]
  = [("d", 10); ("b", 9); ("a", 8); ("c", 8)].
Proof. vm_compute. reflexivity. Qed.

End MatchingClaims.

(** ** Facts about [gap_analysis] *)

Module GapFacts.
Import PyStr PyNum Pipeline Views PyNumFacts MatchingFacts.

Lemma optional_rows_cons (r : Req.t) (rows : list Req.t) :
  optional_rows (r :: rows) =
  if Req.is_required r then optional_rows rows else r :: optional_rows rows.
Proof.
  unfold optional_rows. rewrite filter_cons.
  destruct (Req.is_required r); destruct (decide _); congruence.
Qed.

(** The loop over the requirements puts the matched rows in [user_has],
    in order. *)
Lemma fold_gap_row_user_has (m : gmap string SkillInfo.t) (uss : gset string)
  (rows : list Req.t) (gl : gap_lists) :
  gl_user_has (fold_left (gap_row m uss) rows gl)
  = gl_user_has gl ++ map (has_of m) (matched_rows uss rows).
Proof.
  revert gl. induction rows as [|r rows IH]; intros gl.
  - cbn. rewrite app_nil_r. reflexivity.
  - cbn [fold_left]. rewrite IH, matched_rows_cons. unfold gap_row.
    destruct (decide (lower (Req.skill r) ∈ uss)).
    + cbn [gl_user_has map]. rewrite <- app_assoc. reflexivity.
    + destruct (Req.is_required r); reflexivity.
Qed.

Lemma has_required_rows (m : gmap string SkillInfo.t) (rows : list Req.t) :
  filter (fun s => Has.is_required s = true) (map (has_of m) rows)
  = map (has_of m) (required_rows rows).
Proof.
  induction rows as [|r rows IH]; [reflexivity|].
  rewrite required_rows_cons. cbn [map]. rewrite filter_cons, IH.
  cbn [has_of Has.is_required].
  destruct (Req.is_required r); destruct (decide _); cbn [map]; congruence.
Qed.

Lemma has_optional_rows (m : gmap string SkillInfo.t) (rows : list Req.t) :
  filter (fun s => Has.is_required s = false) (map (has_of m) rows)
  = map (has_of m) (optional_rows rows).
Proof.
  induction rows as [|r rows IH]; [reflexivity|].
  rewrite optional_rows_cons. cbn [map]. rewrite filter_cons, IH.
  cbn [has_of Has.is_required].
  destruct (Req.is_required r); destruct (decide _); cbn [map]; congruence.
Qed.

Lemma has_importance (m : gmap string SkillInfo.t) (rows : list Req.t) :
  map Has.importance (map (has_of m) rows) = map Req.importance rows.
Proof. rewrite map_map. reflexivity. Qed.

Lemma len_map {A B} (f : A -> B) (l : list A) : len (map f l) = len l.
Proof. unfold len. rewrite length_map. reflexivity. Qed.

Lemma len_app {A} (l1 l2 : list A) : len (l1 ++ l2) = len l1 + len l2.
Proof. unfold len. rewrite length_app. lia. Qed.

(** The matched required rows are no more than the required rows. *)
Lemma len_required_matched_le (uss : gset string) (rows : list Req.t) :
  len (required_rows (matched_rows uss rows)) <= len (required_rows rows).
Proof.
  unfold len. apply Nat2Z.inj_le.
  induction rows as [|r rows IH]; [reflexivity|].
  rewrite matched_rows_cons, required_rows_cons.
  destruct (decide _); rewrite ?required_rows_cons;
    destruct (Req.is_required r); cbn [length]; lia.
Qed.

Lemma len_optional_matched_le (uss : gset string) (rows : list Req.t) :
  len (optional_rows (matched_rows uss rows)) <= len (optional_rows rows).
Proof.
  unfold len. apply Nat2Z.inj_le.
  induction rows as [|r rows IH]; [reflexivity|].
  rewrite matched_rows_cons, optional_rows_cons.
  destruct (decide _); rewrite ?optional_rows_cons;
    destruct (Req.is_required r); cbn [length]; lia.
Qed.

Lemma zsum_from (l : list Z) (a : Z) : fold_left Z.add l a = a + zsum l.
Proof.
  unfold zsum. revert a. induction l as [|x l IH]; intros a; cbn [fold_left].
  - lia.
  - rewrite IH, (IH (0 + x)). lia.
Qed.

Lemma zsum_cons (x : Z) (l : list Z) : zsum (x :: l) = x + zsum l.
Proof. unfold zsum at 1. cbn [fold_left]. rewrite zsum_from. lia. Qed.

Lemma zsum_app (l1 l2 : list Z) : zsum (l1 ++ l2) = zsum l1 + zsum l2.
Proof.
  induction l1 as [|x l1 IH]; [reflexivity|].
  cbn [app]. rewrite !zsum_cons, IH. lia.
Qed.

Lemma required_rows_app (l1 l2 : list Req.t) :
  required_rows (l1 ++ l2) = required_rows l1 ++ required_rows l2.
Proof. apply filter_app. Qed.

Lemma optional_rows_app (l1 l2 : list Req.t) :
  optional_rows (l1 ++ l2) = optional_rows l1 ++ optional_rows l2.
Proof. apply filter_app. Qed.

(** For a career of the catalog [gap_analysis] returns an analysis, and
    every figure in it is the one of [gap_fields]. *)
Lemma gap_analysis_fields (df : list catalog_row) (user_skills : skills_input)
  (target_career : string) :
  target_career ∈ map career df ->
  exists g,
    gap_analysis df user_skills target_career = GapOk g
    /\ gap_fields (career_requirements_of df target_career)
         (build_skill_mapping (parsed_skills_of user_skills))
         (gap_user_skill_set user_skills) g.
Proof.
  intros Hin. unfold gap_analysis.
  destruct (decide (target_career ∈ map career df)); [|contradiction].
  eexists. split; [reflexivity|].
  unfold gap_fields, gap_user_skill_set, importance_sum, percent.
  cbn [Gap.user_has Gap.total_skills_needed Gap.skills_covered
       Gap.total_required Gap.total_optional Gap.required_covered
       Gap.optional_covered Gap.total_required_importance
       Gap.user_required_importance Gap.completion_percentage
       Gap.required_completion Gap.optional_coverage
       Gap.required_missing_count Gap.optional_missing_count].
  rewrite fold_gap_row_user_has. cbn [gl_user_has app].
  rewrite has_required_rows, has_optional_rows, !len_map, has_importance.
  repeat split.
Qed.

End GapFacts.

(** ** Claims about [gap_analysis] *)

Module GapClaims.
Import PyStr PyNum Pipeline Views PyNumFacts MatchingFacts GapFacts.

(** C5. For a career of the catalog, [gap_analysis] returns an analysis in
    which [required_covered + required_missing_count = total_required], and
    the five counts are not negative. *)
Theorem gap_analysis_required_counts (df : list catalog_row)
  (user_skills : skills_input) (target_career : string) :
  target_career ∈ map career df ->
  exists g,
    gap_analysis df user_skills target_career = GapOk g
    /\ Gap.required_covered g + Gap.required_missing_count g
       = Gap.total_required g
    /\ 0 <= Gap.required_covered g
    /\ 0 <= Gap.required_missing_count g
    /\ 0 <= Gap.total_required g
    /\ 0 <= Gap.optional_covered g
    /\ 0 <= Gap.optional_missing_count g.
Proof.
  intros Hin.
  destruct (gap_analysis_fields df user_skills target_career Hin)
    as (g & Hg & _ & _ & _ & Htr & _ & Hrc & Hoc & _ & _ & _ & _ & _ & Hrm & Hom).
  exists g. split; [exact Hg|].
  rewrite Hrc, Hrm, Htr, Hoc, Hom.
  pose proof (len_required_matched_le (gap_user_skill_set user_skills)
                (career_requirements_of df target_career)).
  pose proof (len_nonneg (required_rows (matched_rows
    (gap_user_skill_set user_skills) (career_requirements_of df target_career)))).
  pose proof (len_nonneg (optional_rows (matched_rows
    (gap_user_skill_set user_skills) (career_requirements_of df target_career)))).
  lia.
Qed.

Lemma gap_analysis_required_counts_witness :
  "Data Scientist" ∈ map career Demo.df
  /\ exists g,
       gap_analysis Demo.df (SkillsList ["Python"; "SQL"]) "Data Scientist"
       = GapOk g
       /\ Gap.required_covered g + Gap.required_missing_count g
          = Gap.total_required g
       /\ 0 <= Gap.required_covered g
       /\ 0 <= Gap.required_missing_count g
       /\ 0 <= Gap.total_required g
       /\ 0 <= Gap.optional_covered g
       /\ 0 <= Gap.optional_missing_count g.
Proof.
  assert (H : "Data Scientist" ∈ map career Demo.df).
  { by_decide. }
  split; [exact H|].
  apply (gap_analysis_required_counts Demo.df (SkillsList ["Python"; "SQL"])
           "Data Scientist" H).
Defined.

Lemma importance_sum_pos_len (rows : list Req.t) :
  0 < importance_sum rows -> 0 < len rows.
Proof.
  destruct rows; [unfold importance_sum; cbn; lia|unfold len; cbn; lia].
Qed.

(** C6. When the required importance of the analysed requirements is
    positive, [completion_percentage] is the importance of the matched
    required requirements over the importance of all required ones, times
    100, and [required_completion] is the number of matched required
    requirements over the number of required ones, times 100, both rounded
    to one decimal place; with importances 36 of 45 the completion
    percentage is 80. *)
Theorem gap_analysis_completion_percentages (df : list catalog_row)
  (user_skills : skills_input) (target_career : string) :
  target_career ∈ map career df ->
  0 < importance_sum (required_rows (career_requirements_of df target_career)) ->
  exists g,
    gap_analysis df user_skills target_career = GapOk g
    /\ Gap.completion_percentage g
       = round1
           (inject_Z (importance_sum
                        (required_rows (gap_matched df user_skills target_career)))
            / inject_Z (importance_sum
                          (required_rows (career_requirements_of df target_career)))
            * 100)
    /\ Gap.required_completion g
       = round1
           (inject_Z (len (required_rows (gap_matched df user_skills target_career)))
            / inject_Z (len (required_rows (career_requirements_of df target_career)))
            * 100)
    /\ (importance_sum (required_rows (gap_matched df user_skills target_career))
        = 36 ->
        importance_sum (required_rows (career_requirements_of df target_career))
        = 45 ->
        (Gap.completion_percentage g == 80)%Q).
Proof.
  intros Hin Hpos.
  destruct (gap_analysis_fields df user_skills target_career Hin)
    as (g & Hg & _ & _ & _ & _ & _ & _ & _ & _ & _ & Hcp & Hrc & _).
  exists g. split; [exact Hg|].
  unfold percent in Hcp, Hrc. unfold gap_matched.
  pose proof (importance_sum_pos_len _ Hpos) as Hlen.
  apply Z.ltb_lt in Hpos, Hlen. rewrite Hpos in Hcp. rewrite Hlen in Hrc.
  split; [exact Hcp|split; [exact Hrc|]].
  intros H36 H45. rewrite Hcp, H36, H45. reflexivity.
Qed.

Lemma gap_analysis_completion_percentages_witness :
  "Data Scientist" ∈ map career Demo.df
  /\ 0 < importance_sum
           (required_rows (career_requirements_of Demo.df "Data Scientist"))
  /\ importance_sum
       (required_rows (gap_matched Demo.df Demo.ds_skills "Data Scientist"))
     = 36
  /\ importance_sum
       (required_rows (career_requirements_of Demo.df "Data Scientist"))
     = 45
  /\ exists g,
       gap_analysis Demo.df Demo.ds_skills "Data Scientist" = GapOk g
       /\ (Gap.completion_percentage g == 80)%Q
       /\ (Gap.required_completion g == 833 # 10)%Q.
Proof.
  assert (H : "Data Scientist" ∈ map career Demo.df) by by_decide.
  assert (Hpos : 0 < importance_sum
                       (required_rows
                          (career_requirements_of Demo.df "Data Scientist")))
    by (vm_compute; reflexivity).
  assert (H36 : importance_sum
                  (required_rows
                     (gap_matched Demo.df Demo.ds_skills "Data Scientist"))
                = 36) by (vm_compute; reflexivity).
  assert (H45 : importance_sum
                  (required_rows
                     (career_requirements_of Demo.df "Data Scientist"))
                = 45) by (vm_compute; reflexivity).
  split; [exact H|]. split; [exact Hpos|]. split; [exact H36|].
  split; [exact H45|].
  destruct (gap_analysis_completion_percentages Demo.df Demo.ds_skills
              "Data Scientist" H Hpos) as (g & Hg & _ & Hrc & H80).
  exists g. split; [exact Hg|]. split; [exact (H80 H36 H45)|].
  rewrite Hrc. vm_compute. reflexivity.
Defined.

(** The scenario of C6, evaluated: importance 36 of 45 is 80.0 complete,
    while five of the six required requirements are 83.3 covered. *)
Example completion_36_of_45 :
  exists g,
    gap_analysis Demo.df Demo.ds_skills "Data Scientist" = GapOk g
    /\ Gap.user_required_importance g = 36
    /\ Gap.total_required_importance g = 45
    /\ Gap.completion_percentage g = 800 # 10
    /\ Gap.required_completion g = 833 # 10.
Proof. eexists. split; [vm_compute; reflexivity|]. repeat split. Qed.

(** C7, at a list entry that carries a level: the entry is kept whole as
    the skill name and no level is read from it, so it matches no
    requirement and [user_has] stays empty, SQL being reported missing; the
    same entry given as text is parsed, matches SQL and reports the user's
    level in place of the catalog's [Advanced]. *)
Theorem list_entry_level_is_not_parsed :
  (exists g,
     gap_analysis Demo.df (SkillsList ["SQL - Intermediate"]) "Data Scientist"
     = GapOk g
     /\ Gap.user_has g = []
     /\ "SQL" ∈ map Missing.skill (Gap.required_missing g))
  /\ (exists g,
        gap_analysis Demo.df (SkillsText "SQL - Intermediate") "Data Scientist"
        = GapOk g
        /\ Gap.user_has g = [Has.mk "SQL" "Intermediate" 6 true core]).
Proof.
  split; eexists; (split; [vm_compute; reflexivity|]).
  - split; [reflexivity|]. by_decide.
  - reflexivity.
Qed.

Lemma matched_rows_empty (rows : list Req.t) : matched_rows ∅ rows = [].
Proof.
  induction rows as [|r rows IH]; [reflexivity|].
  rewrite matched_rows_cons, IH.
  destruct (decide _) as [H|_]; [|reflexivity].
  apply not_elem_of_empty in H. destruct H.
Qed.

Lemma gap_user_skill_set_empty_list : gap_user_skill_set (SkillsList []) = ∅.
Proof. unfold gap_user_skill_set. cbn. apply dom_empty_L. Qed.

Lemma round1_percent_zero (b : Z) : round1 (percent 0 b) = 0 # 10.
Proof.
  unfold percent. destruct (0 <? b); [|reflexivity].
  destruct b as [|p|p]; reflexivity.
Qed.

(** C8, as the code has it: an empty list of skills is an error for
    neither function. [gap_analysis] returns a whole analysis. *)
Lemma empty_skills_gap_analysis_not_error :
  ~ is_gap_error (gap_analysis Demo.df (SkillsList []) "Data Scientist").
Proof. vm_compute. tauto. Qed.

(** C8, amended. With an empty list of skills [skill_matching] returns the
    empty list, and [gap_analysis], for a career of the catalog, returns an
    analysis in which nothing is covered: [user_has] is empty, the covered
    counts and the completion percentage are 0, and every required
    requirement is counted missing. *)
Theorem empty_skills_results (df : list catalog_row)
  (tfidf_cosine : string -> nat -> Q) (top_n : Z) (target_career : string) :
  target_career ∈ map career df ->
  skill_matching df tfidf_cosine [] top_n = []
  /\ exists g,
       gap_analysis df (SkillsList []) target_career = GapOk g
       /\ Gap.user_has g = []
       /\ Gap.skills_covered g = 0
       /\ Gap.required_covered g = 0
       /\ Gap.completion_percentage g = 0 # 10
       /\ Gap.total_skills_needed g
          = len (career_requirements_of df target_career)
       /\ Gap.required_missing_count g = Gap.total_required g.
Proof.
  intros Hin. split; [reflexivity|].
  destruct (gap_analysis_fields df (SkillsList []) target_career Hin)
    as (g & Hg & Hh & Hn & Hs & Htr & _ & Hrc & _ & _ & _ & Hcp & _ & _ & Hrm & _).
  rewrite gap_user_skill_set_empty_list, matched_rows_empty in *.
  exists g. split; [exact Hg|].
  rewrite Hh, Hn, Hs, Htr, Hrc, Hcp, Hrm.
  change (importance_sum (required_rows [])) with 0.
  rewrite round1_percent_zero.
  pose proof (len_nonneg (required_rows
                (career_requirements_of df target_career))).
  change (len (required_rows [])) with 0.
  repeat split. lia.
Qed.

Lemma empty_skills_results_witness :
  "Data Scientist" ∈ map career Demo.df
  /\ skill_matching Demo.df Demo.no_similarity [] 5 = []
  /\ exists g,
       gap_analysis Demo.df (SkillsList []) "Data Scientist" = GapOk g
       /\ Gap.user_has g = []
       /\ Gap.skills_covered g = 0
       /\ Gap.required_covered g = 0
       /\ Gap.completion_percentage g = 0 # 10
       /\ Gap.total_skills_needed g
          = len (career_requirements_of Demo.df "Data Scientist")
       /\ Gap.required_missing_count g = Gap.total_required g.
Proof.
  assert (H : "Data Scientist" ∈ map career Demo.df) by by_decide.
  split; [exact H|].
  apply (empty_skills_results Demo.df Demo.no_similarity 5 "Data Scientist" H).
Defined.

Lemma importance_sum_app (l1 l2 : list Req.t) :
  importance_sum (l1 ++ l2) = importance_sum l1 + importance_sum l2.
Proof. unfold importance_sum. rewrite map_app. apply zsum_app. Qed.

(** C10. [gap_analysis] analyses the catalog rows of the career followed
    by the rows of its soft-skill table: the totals it reports add the two
    parts, and the three percentages are taken over the whole; a career
    without a table of its own gets the default table, of five rows. *)
Theorem gap_analysis_over_augmented_requirements (df : list catalog_row)
  (user_skills : skills_input) (target_career : string) :
  target_career ∈ map career df ->
  exists g,
    gap_analysis df user_skills target_career = GapOk g
    /\ career_requirements_of df target_career
       = rows_of df target_career ++ _get_soft_skills_for_career target_career
    /\ Gap.total_skills_needed g
       = len (rows_of df target_career)
         + len (_get_soft_skills_for_career target_career)
    /\ Gap.total_required g
       = len (required_rows (rows_of df target_career))
         + len (required_rows (_get_soft_skills_for_career target_career))
    /\ Gap.total_required_importance g
       = importance_sum (required_rows (rows_of df target_career))
         + importance_sum
             (required_rows (_get_soft_skills_for_career target_career))
    /\ Gap.completion_percentage g
       = round1 (percent
           (importance_sum (required_rows (gap_matched df user_skills target_career)))
           (importance_sum (required_rows (career_requirements_of df target_career))))
    /\ Gap.required_completion g
       = round1 (percent
           (len (required_rows (gap_matched df user_skills target_career)))
           (len (required_rows (career_requirements_of df target_career))))
    /\ Gap.optional_coverage g
       = round1 (percent
           (len (optional_rows (gap_matched df user_skills target_career)))
           (len (optional_rows (career_requirements_of df target_career))))
    /\ (dict_get soft_skills_mapping target_career = None ->
        _get_soft_skills_for_career target_career = default_soft_skills
        /\ len (_get_soft_skills_for_career target_career) = 5).
Proof.
  intros Hin.
  destruct (gap_analysis_fields df user_skills target_career Hin)
    as (g & Hg & _ & Hn & _ & Htr & _ & _ & _ & Hti & _ & Hcp & Hrc & Hoc & _).
  exists g. split; [exact Hg|]. split; [reflexivity|].
  rewrite Hn, Htr, Hti, Hcp, Hrc, Hoc. unfold career_requirements_of at 1 2 3.
  rewrite required_rows_app, importance_sum_app, !len_app.
  do 6 (split; [reflexivity|]).
  intros Hnone. unfold _get_soft_skills_for_career. rewrite Hnone.
  split; reflexivity.
Qed.

Lemma gap_analysis_over_augmented_requirements_witness :
  "Backend Developer" ∈ map career Demo.df
  /\ exists g,
    gap_analysis Demo.df (SkillsList ["Java"]) "Backend Developer" = GapOk g
    /\ Gap.total_skills_needed g = 4 + 3
    /\ Gap.total_required g = 4 + 2
    /\ Gap.total_required_importance g = 30 + 15.
Proof.
  assert (H : "Backend Developer" ∈ map career Demo.df) by by_decide.
  split; [exact H|].
  destruct (gap_analysis_over_augmented_requirements Demo.df
              (SkillsList ["Java"]) "Backend Developer" H)
    as (g & Hg & _ & Hn & Hr & Hi & _).
  exists g. split; [exact Hg|]. split; [exact Hn|]. split; [exact Hr|exact Hi].
Defined.

(** The three level formats of [_parse_user_skills]. *)
Example parse_user_skills_levels :
  _parse_user_skills
    ("Python (Advanced)" ++ String "010"%char "SQL - Intermediate"
     ++ String "010"%char "ML : Beginner")%string
  = [SkillInfo.mk "Python" "Advanced"; SkillInfo.mk "SQL" "Intermediate";
     SkillInfo.mk "ML" "Beginner"].
Proof. vm_compute. reflexivity. Qed.

(** Without a level the default of [_determine_skill_level] is used. *)
Example parse_user_skills_defaults :
  _parse_user_skills "Python, Docker , Git,, Cooking"
  = [SkillInfo.mk "Python" "Intermediate"; SkillInfo.mk "Docker" "Advanced";
     SkillInfo.mk "Git" "Beginner"; SkillInfo.mk "Cooking" "Beginner"].
Proof. vm_compute. reflexivity. Qed.

(** A synonym of the table covers the requirement it stands for. *)
Example gap_analysis_synonym :
  exists g,
    gap_analysis Demo.df (SkillsList ["postgresql"]) "Data Scientist" = GapOk g
    /\ map Has.skill (Gap.user_has g) = ["SQL"].
Proof. eexists. split; [vm_compute; reflexivity|reflexivity]. Qed.

End GapClaims.

(** ** Claims about the peer generator *)

Module BenchmarkClaims.
Import PyNum Benchmark.

Section GeneratorFacts.
Variable rng : Type.
Variable np_random_normal : Q -> Q -> rng -> Q * rng.
Variable np_random_choice : list string -> list Q -> rng -> string * rng.
Variable random_randint : Z -> Z -> rng -> Z * rng.
Variable random_random : rng -> Q * rng.

#[local] Abbreviation draw := (draw_candidate rng np_random_normal np_random_choice
                    random_randint).
#[local] Abbreviation retry_loop := (retry rng np_random_normal np_random_choice
                          random_randint).
#[local] Abbreviation drawn := (after_draws rng np_random_normal np_random_choice
                     random_randint).
#[local] Abbreviation peer_skills := (_generate_peer_skills rng random_random).
#[local] Abbreviation one_peer := (generate_peer rng np_random_normal np_random_choice
                        random_randint random_random).
#[local] Abbreviation peers_loop := (generate_peers rng np_random_normal np_random_choice
                          random_randint random_random).
#[local] Abbreviation peer_group := (_generate_realistic_peer_group rng np_random_normal
                          np_random_choice random_randint random_random).

Lemma drawn_succ (k : nat) (profile : Profile.t) (g : rng) :
  drawn (S k) profile g = drawn k profile (snd (draw profile g)).
Proof. reflexivity. Qed.

(** The retry loop, entered with [n + 1] passes left of the 50: it stops
    after [k <= n + 1] passes, on the candidate of the last pass, which
    is either new, and then recorded, or the candidate of the last
    allowed pass, and then a repetition of a recorded combination. *)
Lemma retry_passes (profile : Profile.t) (n : nat) (st : retry_state)
  (g : rng) :
  attempts st + Z.of_nat (S n) = 50 ->
  exists (k : nat) (c : candidate) (st' : retry_state),
    (1 <= k <= S n)%nat
    /\ retry_loop (S n) profile st g = (st', drawn k profile g)
    /\ c = fst (draw profile (drawn (k - 1) profile g))
    /\ last st' = Some c
    /\ (((id_of c ∉ used_combinations st)
         /\ used_combinations st' = {[id_of c]} ∪ used_combinations st)
        \/ (k = S n /\ attempts st' = 50
            /\ (id_of c ∈ used_combinations st)
            /\ used_combinations st' = used_combinations st)).
Proof.
  revert st g. induction n as [|n IH]; intros st g Ha.
  - cbn [retry]. assert ((attempts st <? 50) = true) as -> by lia.
    unfold bind. destruct (draw profile g) as [c g1] eqn:Ec.
    exists 1%nat, c. destruct (decide (id_of c ∉ used_combinations st)).
    + eexists. split; [lia|]. split.
      { unfold ret. rewrite drawn_succ, Ec. reflexivity. }
      cbn [last used_combinations Nat.sub after_draws]. rewrite Ec. auto.
    + eexists. split; [lia|]. split.
      { unfold ret. rewrite drawn_succ, Ec. reflexivity. }
      cbn [last used_combinations attempts Nat.sub after_draws]. rewrite Ec.
      split; [reflexivity|]. split; [reflexivity|]. right.
      repeat split; [lia|]. destruct (decide (id_of c ∈ used_combinations st));
        [assumption|contradiction].
  - remember (S n) as n1 eqn:En1. cbn [retry].
    assert ((attempts st <? 50) = true) as -> by lia.
    unfold bind. destruct (draw profile g) as [c g1] eqn:Ec.
    destruct (decide (id_of c ∉ used_combinations st)).
    + exists 1%nat, c. eexists. split; [lia|]. split.
      { unfold ret. rewrite drawn_succ, Ec. reflexivity. }
      cbn [last used_combinations Nat.sub after_draws]. rewrite Ec. auto.
    + subst n1.
      destruct (IH {| attempts := attempts st + 1; last := Some c;
                      used_combinations := used_combinations st |} g1)
        as (k & c' & st' & Hk & Hr & Hc & Hl & Hu).
      { cbn [attempts]. lia. }
      exists (S k), c', st'. split; [lia|]. split.
      { rewrite Hr, drawn_succ, Ec. reflexivity. }
      split.
      { rewrite Hc. destruct k as [|k]; [lia|].
        cbn [Nat.sub]. rewrite Nat.sub_0_r, drawn_succ, Ec. reflexivity. }
      split; [exact Hl|]. cbn [used_combinations] in Hu.
      destruct Hu as [Hu|(-> & Hu)]; [left; exact Hu|right].
      split; [reflexivity|exact Hu].
Qed.

(** One iteration of the outer loop appends one peer, built from the
    candidate the retry loop stopped on. *)
Lemma generate_peer_appends (profile : Profile.t) (peers : list Peer.t)
  (used : gset peer_id) (g : rng) :
  exists (k : nat) (c : candidate) (st' : retry_state) (skills : list string)
         (g' : rng),
    (1 <= k <= 50)%nat
    /\ retry_loop 50 profile
         {| attempts := 0; last := None; used_combinations := used |} g
       = (st', drawn k profile g)
    /\ c = fst (draw profile (drawn (k - 1) profile g))
    /\ (((id_of c ∉ used) /\ used_combinations st' = {[id_of c]} ∪ used)
        \/ (k = 50%nat /\ attempts st' = 50 /\ (id_of c ∈ used)
            /\ used_combinations st' = used))
    /\ one_peer profile (peers, used) g
       = (Some (peers ++
                [Peer.mk (c_experience c) (c_education c) (c_salary c)
                   skills (len skills)],
                used_combinations st'), g').
Proof.
  destruct (retry_passes profile 49
              {| attempts := 0; last := None; used_combinations := used |} g)
    as (k & c & st' & Hk & Hr & Hc & Hl & Hu); [reflexivity|].
  cbn [used_combinations] in Hu.
  destruct (peer_skills profile (c_experience c) (drawn k profile g))
    as [skills g'] eqn:Es.
  exists k, c, st', skills, g'.
  split; [exact Hk|]. split; [exact Hr|]. split; [exact Hc|].
  split; [exact Hu|].
  unfold generate_peer, bind. rewrite Hr, Hl, Es. reflexivity.
Qed.

Lemma generate_peers_length (profile : Profile.t) (n : nat)
  (peers : list Peer.t) (used : gset peer_id) (g : rng) :
  exists peers' used' g',
    peers_loop n profile (peers, used) g = (Some (peers', used'), g')
    /\ length peers' = (length peers + n)%nat.
Proof.
  revert peers used g. induction n as [|n IH]; intros peers used g.
  - cbn. unfold ret. exists peers, used, g. split; [reflexivity|lia].
  - cbn [generate_peers]. unfold bind.
    destruct (generate_peer_appends profile peers used g)
      as (k & c & st' & skills & g1 & _ & _ & _ & _ & ->).
    destruct (IH (peers ++
                  [Peer.mk (c_experience c) (c_education c) (c_salary c)
                     skills (len skills)]) (used_combinations st') g1)
      as (peers' & used' & g' & -> & Hlen).
    exists peers', used', g'. split; [reflexivity|].
    rewrite Hlen, length_app. cbn. lia.
Qed.

(** C9. For a supported career and a sample size that is not negative:
    the retry loop of one peer makes between 1 and 50 passes and stops on
    the candidate of its last pass, which is new and recorded, or is the
    candidate of the 50th pass and repeats a recorded
    (experience, education, salary bucket) combination; either way the
    peer built from that candidate is appended; and the generator returns,
    with exactly [sample_size] peers. *)
Theorem peer_group_retry_bounded_and_complete (career : string)
  (profile : Profile.t) (sample_size : Z) (g : rng) :
  Pipeline.dict_get career_profiles career = Some profile ->
  0 <= sample_size ->
  (forall (peers : list Peer.t) (used : gset peer_id) (g0 : rng),
     exists (k : nat) (c : candidate) (st' : retry_state)
            (skills : list string) (g1 : rng),
       (1 <= k <= 50)%nat
       /\ retry_loop 50 profile
            {| attempts := 0; last := None; used_combinations := used |} g0
          = (st', drawn k profile g0)
       /\ c = fst (draw profile (drawn (k - 1) profile g0))
       /\ (((id_of c ∉ used) /\ used_combinations st' = {[id_of c]} ∪ used)
           \/ (k = 50%nat /\ attempts st' = 50 /\ (id_of c ∈ used)
               /\ used_combinations st' = used))
       /\ one_peer profile (peers, used) g0
          = (Some (peers ++
                   [Peer.mk (c_experience c) (c_education c) (c_salary c)
                      skills (len skills)],
                   used_combinations st'), g1))
  /\ exists peers g',
       peer_group career sample_size g = (Some peers, g')
       /\ len peers = sample_size.
Proof.
  intros Hp Hn. split.
  - intros peers used g0. apply generate_peer_appends.
  - unfold _generate_realistic_peer_group. rewrite Hp. unfold bind, ret.
    destruct (generate_peers_length profile (Z.to_nat sample_size) [] ∅ g)
      as (peers & used' & g' & -> & Hlen).
    exists peers, g'. split; [reflexivity|].
    unfold len. rewrite Hlen. cbn [length]. lia.
Qed.

End GeneratorFacts.

Lemma peer_group_retry_bounded_and_complete_witness :
  Pipeline.dict_get career_profiles "Data Scientist" = Some data_scientist
  /\ 0 <= 3
  /\ exists peers g',
       _generate_realistic_peer_group unit Demo.const_normal Demo.const_choice
         Demo.const_randint Demo.const_random "Data Scientist" 3 tt
       = (Some peers, g')
       /\ len peers = 3.
Proof.
  split; [reflexivity|]. split; [lia|].
  apply (peer_group_retry_bounded_and_complete unit Demo.const_normal
           Demo.const_choice Demo.const_randint Demo.const_random
           "Data Scientist" data_scientist 3 tt eq_refl).
  lia.
Defined.

(** The same sample, evaluated: with a random source that repeats itself
    the second and the third peer repeat the first. *)
Example const_peer_group_repeats :
  option_map (map (fun p => (Peer.experience_years p, Peer.education p,
                             Peer.salary p)))
    (Demo.const_peer_group "Data Scientist" 3)
  = Some [(7, "Bachelor's", 132000); (7, "Bachelor's", 132000);
          (7, "Bachelor's", 132000)].
Proof. vm_compute. reflexivity. Qed.

(** With the combination of that source already recorded, the retry loop
    uses its 50 passes and stops on the repetition. *)
Example retry_exhausts_budget :
  (fun st => (attempts st, option_map id_of (last st),
              size (used_combinations st)))
    (fst (retry unit Demo.const_normal Demo.const_choice Demo.const_randint
            50 data_scientist
            {| attempts := 0; last := None;
               used_combinations := {[ (7, "Bachelor's", 26) ]} |} tt))
  = (50, Some (7, "Bachelor's", 26), 1%nat).
Proof. vm_compute. reflexivity. Qed.

End BenchmarkClaims.
